(** * Meta-tool registry and dispatch of portainer-mcp

    A shallow embedding of [internal/mcp/metatool_registry.go] (the static
    catalog of grouped tools) and [internal/mcp/metatool_handler.go]
    (registration under the read-only flag, and the routing handler), with
    the properties of the grouped-tool registry proved about it.

    Go values are rendered as follows.
    - [string] is [string]; [[]T] is [list T]; [map[string]T] is
      [gmap string T]; [*bool] and [*CallToolResult] are [option].
    - [interface{}] values of a decoded JSON argument bag are the type [any].
    - A handler of type [server.ToolHandlerFunc] may talk to the
      Portainer backend: it is a function that also takes and returns the
      state of the [World] it runs in.
    - [s.srv.AddTool] mutates the MCP server behind a pointer: registration
      takes a server and returns the server after the calls. *)

From stdpp Require Import gmap strings list fin_maps.

#[local] Set Warnings "-register-all,-clear-no-such-hyp".

(** ** Values of the protocol library (mcp-go)

    The types below belong to [github.com/mark3labs/mcp-go], which the
    repository imports; they are written out as far as the registry uses
    them. *)

(** A decoded JSON value held in a Go [interface{}]. Numbers are kept as
    integers: the router only asks whether a value is a string. *)
Inductive any : Type :=
  | AnyNil
  | AnyBool (b : bool)
  | AnyNumber (n : Z)
  | AnyString (s : string)
  | AnySlice (l : list any)
  | AnyMap (m : gmap string any).

(** [mcp.ToolAnnotation]. *)
Record ToolAnnotation : Type := mkToolAnnotation {
  Title : string;
  ReadOnlyHint : option bool;
  DestructiveHint : option bool;
  IdempotentHint : option bool;
  OpenWorldHint : option bool
}.

(** [mcp.ToolInputSchema]. *)
Record ToolInputSchema : Type := mkToolInputSchema {
  SchemaType : string;
  Properties : gmap string any;
  Required : list string
}.

(** [mcp.Tool]. *)
Record Tool : Type := mkTool {
  Name : string;
  Description : string;
  InputSchema : ToolInputSchema;
  Annotations : ToolAnnotation
}.

(** [mcp.Content], of which the registry only builds text. *)
Inductive Content : Type :=
  | TextContent (text : string).

(** [mcp.CallToolResult]. *)
Record CallToolResult : Type := mkCallToolResult {
  ResultContent : list Content;
  IsError : bool
}.

(** [mcp.CallToolRequest]: the name of the called tool and its argument
    bag [Params.Arguments], an untyped value. *)
Record CallToolRequest : Type := mkCallToolRequest {
  ParamsName : string;
  ParamsArguments : any
}.

(** [request.GetArguments()]: the bag when it is a JSON object, a nil map
    (which reads as empty) otherwise. *)
Definition GetArguments (request : CallToolRequest) : gmap string any :=
  match ParamsArguments request with
  | AnyMap args => args
  | _ => ∅
  end.

(** The type assertion [v.(string)] in its comma-ok form. *)
Definition assertString (v : any) : string * bool :=
  match v with
  | AnyString s => (s, true)
  | _ => (""%string, false)
  end.

(** The type assertion [v.(bool)] in its comma-ok form. *)
Definition assertBool (v : any) : bool * bool :=
  match v with
  | AnyBool b => (b, true)
  | _ => (false, false)
  end.

(** [mcp.NewToolResultError] and [mcp.NewToolResultText]. *)
Definition NewToolResultError (text : string) : CallToolResult :=
  {| ResultContent := [TextContent text]; IsError := true |}.

Definition NewToolResultText (text : string) : CallToolResult :=
  {| ResultContent := [TextContent text]; IsError := false |}.

(** [strings.Join(elems, sep)]. *)
Definition strings_Join (elems : list string) (sep : string) : string :=
  String.concat sep elems.

(** [boolPtr] of the registry: a fresh pointer to [v]. *)
Definition boolPtr (v : bool) : option bool := Some v.

(** *** The tool builder

    [mcp.NewTool(name, opts...)] starts from a tool with an empty object
    schema and the library's default annotation and applies the options in
    order. A property option edits the JSON schema of one parameter. *)

Definition ToolOption : Type := Tool → Tool.
Definition PropertyOption : Type := gmap string any → gmap string any.

Definition mcp_Required : PropertyOption :=
  λ schema, <["required" := AnyBool true]> schema.

Definition mcp_Description (desc : string) : PropertyOption :=
  λ schema, <["description" := AnyString desc]> schema.

Definition mcp_Enum (values : list string) : PropertyOption :=
  λ schema, <["enum" := AnySlice (AnyString <$> values)]> schema.

Definition WithDescription (description : string) : ToolOption :=
  λ t, {| Name := Name t; Description := description;
          InputSchema := InputSchema t; Annotations := Annotations t |}.

Definition WithToolAnnotation (annotation : ToolAnnotation) : ToolOption :=
  λ t, {| Name := Name t; Description := Description t;
          InputSchema := InputSchema t; Annotations := annotation |}.

(** [mcp.WithString]: a string parameter. The ["required"] mark an option
    left in the schema is moved to the [Required] list of the tool. *)
Definition WithString (name : string) (opts : list PropertyOption) : ToolOption :=
  λ t,
    let schema := foldl (λ schema opt, opt schema)
                        (<["type" := AnyString "string"]> ∅) opts in
    let '(required, ok) :=
      match schema !! "required" with
      | Some v => assertBool v
      | None => (false, false)
      end in
    let '(schema, requiredList) :=
      if ok && required
      then (delete "required" schema, Required (InputSchema t) ++ [name])
      else (schema, Required (InputSchema t)) in
    {| Name := Name t; Description := Description t;
       InputSchema := {| SchemaType := SchemaType (InputSchema t);
                         Properties := <[name := AnyMap schema]> (Properties (InputSchema t));
                         Required := requiredList |};
       Annotations := Annotations t |}.

Definition NewTool (name : string) (opts : list ToolOption) : Tool :=
  foldl (λ tool opt, opt tool)
        {| Name := name; Description := "";
           InputSchema := {| SchemaType := "object"; Properties := ∅; Required := [] |};
           Annotations := {| Title := "";
                             ReadOnlyHint := Some false;
                             DestructiveHint := Some true;
                             IdempotentHint := Some false;
                             OpenWorldHint := Some true |} |}
        opts.

(** Reading a registered tool back, the way a client (and the repository's
    tests) see it: the JSON schema of a parameter, and the string list or
    string under one of its keys. *)
Definition propertySchema (t : Tool) (param : string) : option (gmap string any) :=
  match Properties (InputSchema t) !! param with
  | Some (AnyMap schema) => Some schema
  | _ => None
  end.

Definition stringsOf (v : any) : option (list string) :=
  match v with
  | AnySlice l => mapM (λ x, match x with AnyString s => Some s | _ => None end) l
  | _ => None
  end.

Definition enumOf (t : Tool) (param : string) : option (list string) :=
  propertySchema t param ≫= λ schema, schema !! "enum" ≫= stringsOf.

Definition descriptionOf (t : Tool) (param : string) : option string :=
  propertySchema t param ≫= λ schema,
    match schema !! "description" with
    | Some (AnyString d) => Some d
    | _ => None
    end.

(** ** What the registry takes from its surroundings

    Handlers run against a backend and under a request context, and they
    may fail with a Go [error]; none of the three is inspected by the
    registry. [range_order w ks] is the order in which a [for k := range m]
    statement executed in world [w] visits the keys [ks] of [m]: the
    language leaves it open and it may change from one loop to the next. *)
Class Runtime : Type := {
  World : Type;
  GoContext : Type;
  GoError : Type;
  range_order : World → gset string → list string
}.

(** All that Go promises about [range] on a map that is not modified
    meanwhile: every key is visited once. *)
Definition range_visits_each_key_once `{Runtime} : Prop :=
  ∀ (w : World) (ks : gset string), range_order w ks ≡ₚ elements ks.

(** [server.ToolHandlerFunc]: the result pair of the Go function, and the
    world after the call. *)
Definition ToolHandlerFunc `{Runtime} : Type :=
  GoContext → CallToolRequest → World →
  World * (option CallToolResult * option GoError).

(** [server.ServerTool] and the tool table of [server.MCPServer], a
    [map[string]ServerTool] keyed by tool name. *)
Record ServerTool `{Runtime} : Type := mkServerTool {
  ServerTool_Tool : Tool;
  ServerTool_Handler : ToolHandlerFunc
}.

Record MCPServer `{Runtime} : Type := mkMCPServer {
  tools : gmap string ServerTool
}.

(** [srv.AddTool(tool, handler)] stores the pair under the tool's name; an
    entry already there under that name is replaced. *)
Definition AddTool `{Runtime} (srv : MCPServer) (tool : Tool)
    (handler : ToolHandlerFunc) : MCPServer :=
  {| tools := <[Name tool := {| ServerTool_Tool := tool;
                                ServerTool_Handler := handler |}]> (tools srv) |}.

(** The server's answer to a [tools/call] request, as far as it concerns
    a registered tool: the tool is looked up by name and its handler is
    run on the request. [None] stands for the protocol error the server
    returns when no tool has that name. *)
Definition CallTool `{Runtime} (srv : MCPServer) (ctx : GoContext)
    (request : CallToolRequest) (w : World)
    : option (World * (option CallToolResult * option GoError)) :=
  match tools srv !! ParamsName request with
  | Some entry => Some (ServerTool_Handler entry ctx request w)
  | None => None
  end.

(** The ["action"] enum a client reads on the tool registered under a
    name. *)
Definition registeredEnum `{Runtime} (srv : MCPServer) (tool : string)
    : option (list string) :=
  tools srv !! tool ≫= λ entry, enumOf (ServerTool_Tool entry) "action".

(** ** The registry's own types *)

(** [PortainerMCPServer], reduced to the two fields registration reads. *)
Record PortainerMCPServer `{Runtime} : Type := mkPortainerMCPServer {
  srv : MCPServer;
  readOnly : bool
}.

(** [metaAction]: fields [name], [handler], [readOnly]. The handler field
    is a function value that is set, as the package's test
    [TestAllMetaToolActionsHaveHandlers] requires of every action. *)
Record metaAction `{Runtime} : Type := mkMetaAction {
  action_name : string;
  action_handler : PortainerMCPServer → ToolHandlerFunc;
  action_readOnly : bool
}.

(** [metaToolDef]: fields [name], [description], [actions], [annotation]. *)
Record metaToolDef `{Runtime} : Type := mkMetaToolDef {
  def_name : string;
  def_description : string;
  def_actions : list metaAction;
  def_annotation : ToolAnnotation
}.

(** The handler methods of [PortainerMCPServer] live in the per-domain
    files of the package; the catalog refers to them by method expression,
    [( *PortainerMCPServer).HandleGetUsers] and so on. [method m] is the
    method named [m]. *)
Class Methods `{Runtime} : Type := {
  method : string → PortainerMCPServer → ToolHandlerFunc
}.

(** ** metatool_handler.go *)

Section Handler.
Context `{Runtime}.

(** [makeMetaHandler]: route on the ["action"] argument. *)
Definition makeMetaHandler (metaToolName : string)
    (handlers : gmap string ToolHandlerFunc) : ToolHandlerFunc :=
  λ ctx request w,
    match GetArguments request !! "action" with
    | None =>
        (w, (Some (NewToolResultError "missing required parameter: action"), None))
    | Some actionRaw =>
        let '(action, ok) := assertString actionRaw in
        if negb ok || bool_decide (action = "")
        then (w, (Some (NewToolResultError
                          "parameter 'action' must be a non-empty string"), None))
        else
          match (handlers !! action : option ToolHandlerFunc) with
          | None =>
              let available :=
                foldl (λ available k, available ++ [k]) []
                      (range_order w (dom handlers)) in
              (w, (Some (NewToolResultError
                           ("unknown action '" +:+ action +:+ "' for tool '" +:+
                            metaToolName +:+ "'. Available actions: " +:+
                            strings_Join available ", ")), None))
          | Some handler => handler ctx request w
          end
    end.

(** The three loops of [registerOneMetaTool]. *)

(** Lines 28-34: keep the actions allowed under the read-only flag. *)
Definition filterActions (readOnlyMode : bool) (actions : list metaAction)
    : list metaAction :=
  foldl (λ available a,
           if readOnlyMode && negb (action_readOnly a)
           then available
           else available ++ [a])
        [] actions.

(** Lines 41-46: the enum values, written by index into a slice of the
    length of [available], and the dispatch map, written by name. *)
Definition buildDispatch (s : PortainerMCPServer) (available : list metaAction)
    : list string * gmap string ToolHandlerFunc :=
  foldl (λ '(actionNames, handlers) '(i, a),
           (<[i := action_name a]> actionNames,
            <[action_name a := action_handler a s]> handlers))
        (replicate (length available) ""%string, ∅)
        (imap pair available).

(** Lines 51-57: scan until the first action that is not read-only. *)
Fixpoint allReadOnly (available : list metaAction) : bool :=
  match available with
  | [] => true
  | a :: rest => if negb (action_readOnly a) then false else allReadOnly rest
  end.

(** [registerOneMetaTool]. The Go function returns nothing and holds no
    [panic], assertion or exit: it either returns early or ends with the
    call of [AddTool]. Its model is a total function on the server. *)
Definition registerOneMetaTool (s : PortainerMCPServer) (def : metaToolDef)
    : PortainerMCPServer :=
  let available := filterActions (readOnly s) (def_actions def) in
  if bool_decide (length available = 0) then s
  else
    let '(actionNames, handlers) := buildDispatch s available in
    let annotation := def_annotation def in
    let annotation :=
      if allReadOnly available
      then {| Title := Title annotation;
              ReadOnlyHint := boolPtr true;
              DestructiveHint := boolPtr false;
              IdempotentHint := IdempotentHint annotation;
              OpenWorldHint := OpenWorldHint annotation |}
      else annotation in
    let tool :=
      NewTool (def_name def)
        [ WithDescription (def_description def);
          WithToolAnnotation annotation;
          WithString "action"
            [ mcp_Required;
              mcp_Description ("The operation to perform. Available actions: " +:+
                               strings_Join actionNames ", ");
              mcp_Enum actionNames ] ] in
    {| srv := AddTool (srv s) tool (makeMetaHandler (def_name def) handlers);
       readOnly := readOnly s |}.

(** The loop of [RegisterMetaTools], over any list of definitions. *)
Definition registerAll (s : PortainerMCPServer) (defs : list metaToolDef)
    : PortainerMCPServer :=
  foldl registerOneMetaTool s defs.

(** The dispatch table that [registerOneMetaTool] hands to
    [makeMetaHandler] for [def], and the enum values built with it. *)
Definition dispatchTable (s : PortainerMCPServer) (def : metaToolDef)
    : gmap string ToolHandlerFunc :=
  (buildDispatch s (filterActions (readOnly s) (def_actions def))).2.

Definition actionNamesOf (s : PortainerMCPServer) (def : metaToolDef)
    : list string :=
  (buildDispatch s (filterActions (readOnly s) (def_actions def))).1.
End Handler.

(** ** metatool_registry.go

    [metaToolDefinitions]: the complete list of meta-tool groups. *)
Definition metaToolDefinitions `{Methods} : list metaToolDef :=
    [
      {| def_name := "manage_environments";
         def_description :=
           "Manage Portainer environments (endpoints), environment groups, and environment tags. Use the 'action' parameter to specify the operation.";
         def_actions :=
           [ {| action_name := "list_environments"; action_handler := method "HandleGetEnvironments"; action_readOnly := true |};
             {| action_name := "get_environment"; action_handler := method "HandleGetEnvironment"; action_readOnly := true |};
             {| action_name := "delete_environment"; action_handler := method "HandleDeleteEnvironment"; action_readOnly := false |};
             {| action_name := "snapshot_environment"; action_handler := method "HandleSnapshotEnvironment"; action_readOnly := false |};
             {| action_name := "snapshot_all_environments"; action_handler := method "HandleSnapshotAllEnvironments"; action_readOnly := false |};
             {| action_name := "update_environment_tags"; action_handler := method "HandleUpdateEnvironmentTags"; action_readOnly := false |};
             {| action_name := "update_environment_user_accesses"; action_handler := method "HandleUpdateEnvironmentUserAccesses"; action_readOnly := false |};
             {| action_name := "update_environment_team_accesses"; action_handler := method "HandleUpdateEnvironmentTeamAccesses"; action_readOnly := false |};
             {| action_name := "list_environment_groups"; action_handler := method "HandleGetEnvironmentGroups"; action_readOnly := true |};
             {| action_name := "create_environment_group"; action_handler := method "HandleCreateEnvironmentGroup"; action_readOnly := false |};
             {| action_name := "update_environment_group_name"; action_handler := method "HandleUpdateEnvironmentGroupName"; action_readOnly := false |};
             {| action_name := "update_environment_group_environments"; action_handler := method "HandleUpdateEnvironmentGroupEnvironments"; action_readOnly := false |};
             {| action_name := "update_environment_group_tags"; action_handler := method "HandleUpdateEnvironmentGroupTags"; action_readOnly := false |};
             {| action_name := "list_environment_tags"; action_handler := method "HandleGetEnvironmentTags"; action_readOnly := true |};
             {| action_name := "create_environment_tag"; action_handler := method "HandleCreateEnvironmentTag"; action_readOnly := false |};
             {| action_name := "delete_environment_tag"; action_handler := method "HandleDeleteEnvironmentTag"; action_readOnly := false |} ];
         def_annotation :=
           {| Title := "Manage Environments";
              ReadOnlyHint := boolPtr false;
              DestructiveHint := boolPtr true;
              IdempotentHint := boolPtr false;
              OpenWorldHint := boolPtr false |} |};
      {| def_name := "manage_stacks";
         def_description :=
           "Manage Portainer stacks (Docker Compose and Edge stacks). Use the 'action' parameter to specify the operation.";
         def_actions :=
           [ {| action_name := "list_stacks"; action_handler := method "HandleGetStacks"; action_readOnly := true |};
             {| action_name := "list_regular_stacks"; action_handler := method "HandleListRegularStacks"; action_readOnly := true |};
             {| action_name := "get_stack"; action_handler := method "HandleInspectStack"; action_readOnly := true |};
             {| action_name := "get_stack_file"; action_handler := method "HandleGetStackFile"; action_readOnly := true |};
             {| action_name := "inspect_stack_file"; action_handler := method "HandleInspectStackFile"; action_readOnly := true |};
             {| action_name := "create_stack"; action_handler := method "HandleCreateStack"; action_readOnly := false |};
             {| action_name := "update_stack"; action_handler := method "HandleUpdateStack"; action_readOnly := false |};
             {| action_name := "delete_stack"; action_handler := method "HandleDeleteStack"; action_readOnly := false |};
             {| action_name := "update_stack_git"; action_handler := method "HandleUpdateStackGit"; action_readOnly := false |};
             {| action_name := "redeploy_stack_git"; action_handler := method "HandleRedeployStackGit"; action_readOnly := false |};
             {| action_name := "start_stack"; action_handler := method "HandleStartStack"; action_readOnly := false |};
             {| action_name := "stop_stack"; action_handler := method "HandleStopStack"; action_readOnly := false |};
             {| action_name := "migrate_stack"; action_handler := method "HandleMigrateStack"; action_readOnly := false |} ];
         def_annotation :=
           {| Title := "Manage Stacks";
              ReadOnlyHint := boolPtr false;
              DestructiveHint := boolPtr true;
              IdempotentHint := boolPtr false;
              OpenWorldHint := boolPtr false |} |};
      {| def_name := "manage_access_groups";
         def_description :=
           "Manage Portainer access groups and their user/team access policies. Use the 'action' parameter to specify the operation.";
         def_actions :=
           [ {| action_name := "list_access_groups"; action_handler := method "HandleGetAccessGroups"; action_readOnly := true |};
             {| action_name := "create_access_group"; action_handler := method "HandleCreateAccessGroup"; action_readOnly := false |};
             {| action_name := "update_access_group_name"; action_handler := method "HandleUpdateAccessGroupName"; action_readOnly := false |};
             {| action_name := "update_access_group_user_accesses"; action_handler := method "HandleUpdateAccessGroupUserAccesses"; action_readOnly := false |};
             {| action_name := "update_access_group_team_accesses"; action_handler := method "HandleUpdateAccessGroupTeamAccesses"; action_readOnly := false |};
             {| action_name := "add_environment_to_access_group"; action_handler := method "HandleAddEnvironmentToAccessGroup"; action_readOnly := false |};
             {| action_name := "remove_environment_from_access_group"; action_handler := method "HandleRemoveEnvironmentFromAccessGroup"; action_readOnly := false |} ];
         def_annotation :=
           {| Title := "Manage Access Groups";
              ReadOnlyHint := boolPtr false;
              DestructiveHint := boolPtr true;
              IdempotentHint := boolPtr false;
              OpenWorldHint := boolPtr false |} |};
      {| def_name := "manage_users";
         def_description :=
           "Manage Portainer users. Use the 'action' parameter to specify the operation.";
         def_actions :=
           [ {| action_name := "list_users"; action_handler := method "HandleGetUsers"; action_readOnly := true |};
             {| action_name := "get_user"; action_handler := method "HandleGetUser"; action_readOnly := true |};
             {| action_name := "create_user"; action_handler := method "HandleCreateUser"; action_readOnly := false |};
             {| action_name := "delete_user"; action_handler := method "HandleDeleteUser"; action_readOnly := false |};
             {| action_name := "update_user_role"; action_handler := method "HandleUpdateUserRole"; action_readOnly := false |} ];
         def_annotation :=
           {| Title := "Manage Users";
              ReadOnlyHint := boolPtr false;
              DestructiveHint := boolPtr true;
              IdempotentHint := boolPtr false;
              OpenWorldHint := boolPtr false |} |};
      {| def_name := "manage_teams";
         def_description :=
           "Manage Portainer teams and team membership. Use the 'action' parameter to specify the operation.";
         def_actions :=
           [ {| action_name := "list_teams"; action_handler := method "HandleGetTeams"; action_readOnly := true |};
             {| action_name := "get_team"; action_handler := method "HandleGetTeam"; action_readOnly := true |};
             {| action_name := "create_team"; action_handler := method "HandleCreateTeam"; action_readOnly := false |};
             {| action_name := "delete_team"; action_handler := method "HandleDeleteTeam"; action_readOnly := false |};
             {| action_name := "update_team_name"; action_handler := method "HandleUpdateTeamName"; action_readOnly := false |};
             {| action_name := "update_team_members"; action_handler := method "HandleUpdateTeamMembers"; action_readOnly := false |} ];
         def_annotation :=
           {| Title := "Manage Teams";
              ReadOnlyHint := boolPtr false;
              DestructiveHint := boolPtr true;
              IdempotentHint := boolPtr false;
              OpenWorldHint := boolPtr false |} |};
      {| def_name := "manage_docker";
         def_description :=
           "Interact with Docker environments via proxy API calls and dashboards. Use the 'action' parameter to specify the operation.";
         def_actions :=
           [ {| action_name := "get_docker_dashboard"; action_handler := method "HandleGetDockerDashboard"; action_readOnly := true |};
             {| action_name := "docker_proxy"; action_handler := method "HandleDockerProxy"; action_readOnly := false |} ];
         def_annotation :=
           {| Title := "Manage Docker";
              ReadOnlyHint := boolPtr false;
              DestructiveHint := boolPtr true;
              IdempotentHint := boolPtr false;
              OpenWorldHint := boolPtr true |} |};
      {| def_name := "manage_kubernetes";
         def_description :=
           "Interact with Kubernetes environments via proxy API calls, dashboards, namespaces, and kubeconfig. Use the 'action' parameter to specify the operation.";
         def_actions :=
           [ {| action_name := "get_kubernetes_resource_stripped"; action_handler := method "HandleKubernetesProxyStripped"; action_readOnly := true |};
             {| action_name := "get_kubernetes_dashboard"; action_handler := method "HandleGetKubernetesDashboard"; action_readOnly := true |};
             {| action_name := "list_kubernetes_namespaces"; action_handler := method "HandleListKubernetesNamespaces"; action_readOnly := true |};
             {| action_name := "get_kubernetes_config"; action_handler := method "HandleGetKubernetesConfig"; action_readOnly := true |};
             {| action_name := "kubernetes_proxy"; action_handler := method "HandleKubernetesProxy"; action_readOnly := false |} ];
         def_annotation :=
           {| Title := "Manage Kubernetes";
              ReadOnlyHint := boolPtr false;
              DestructiveHint := boolPtr true;
              IdempotentHint := boolPtr false;
              OpenWorldHint := boolPtr true |} |};
      {| def_name := "manage_helm";
         def_description :=
           "Manage Helm repositories, charts, and releases. Use the 'action' parameter to specify the operation.";
         def_actions :=
           [ {| action_name := "list_helm_repositories"; action_handler := method "HandleListHelmRepositories"; action_readOnly := true |};
             {| action_name := "search_helm_charts"; action_handler := method "HandleSearchHelmCharts"; action_readOnly := true |};
             {| action_name := "list_helm_releases"; action_handler := method "HandleListHelmReleases"; action_readOnly := true |};
             {| action_name := "get_helm_release_history"; action_handler := method "HandleGetHelmReleaseHistory"; action_readOnly := true |};
             {| action_name := "add_helm_repository"; action_handler := method "HandleAddHelmRepository"; action_readOnly := false |};
             {| action_name := "remove_helm_repository"; action_handler := method "HandleRemoveHelmRepository"; action_readOnly := false |};
             {| action_name := "install_helm_chart"; action_handler := method "HandleInstallHelmChart"; action_readOnly := false |};
             {| action_name := "delete_helm_release"; action_handler := method "HandleDeleteHelmRelease"; action_readOnly := false |} ];
         def_annotation :=
           {| Title := "Manage Helm";
              ReadOnlyHint := boolPtr false;
              DestructiveHint := boolPtr true;
              IdempotentHint := boolPtr false;
              OpenWorldHint := boolPtr false |} |};
      {| def_name := "manage_registries";
         def_description :=
           "Manage Docker registries (Quay, Azure, DockerHub, GitLab, ECR, custom). Use the 'action' parameter to specify the operation.";
         def_actions :=
           [ {| action_name := "list_registries"; action_handler := method "HandleListRegistries"; action_readOnly := true |};
             {| action_name := "get_registry"; action_handler := method "HandleGetRegistry"; action_readOnly := true |};
             {| action_name := "create_registry"; action_handler := method "HandleCreateRegistry"; action_readOnly := false |};
             {| action_name := "update_registry"; action_handler := method "HandleUpdateRegistry"; action_readOnly := false |};
             {| action_name := "delete_registry"; action_handler := method "HandleDeleteRegistry"; action_readOnly := false |} ];
         def_annotation :=
           {| Title := "Manage Registries";
              ReadOnlyHint := boolPtr false;
              DestructiveHint := boolPtr true;
              IdempotentHint := boolPtr false;
              OpenWorldHint := boolPtr false |} |};
      {| def_name := "manage_templates";
         def_description :=
           "Manage custom templates and application templates. Use the 'action' parameter to specify the operation.";
         def_actions :=
           [ {| action_name := "list_custom_templates"; action_handler := method "HandleListCustomTemplates"; action_readOnly := true |};
             {| action_name := "get_custom_template"; action_handler := method "HandleGetCustomTemplate"; action_readOnly := true |};
             {| action_name := "get_custom_template_file"; action_handler := method "HandleGetCustomTemplateFile"; action_readOnly := true |};
             {| action_name := "create_custom_template"; action_handler := method "HandleCreateCustomTemplate"; action_readOnly := false |};
             {| action_name := "delete_custom_template"; action_handler := method "HandleDeleteCustomTemplate"; action_readOnly := false |};
             {| action_name := "list_app_templates"; action_handler := method "HandleListAppTemplates"; action_readOnly := true |};
             {| action_name := "get_app_template_file"; action_handler := method "HandleGetAppTemplateFile"; action_readOnly := true |} ];
         def_annotation :=
           {| Title := "Manage Templates";
              ReadOnlyHint := boolPtr false;
              DestructiveHint := boolPtr true;
              IdempotentHint := boolPtr false;
              OpenWorldHint := boolPtr false |} |};
      {| def_name := "manage_backups";
         def_description :=
           "Manage Portainer server backups (local and S3). Use the 'action' parameter to specify the operation.";
         def_actions :=
           [ {| action_name := "get_backup_status"; action_handler := method "HandleGetBackupStatus"; action_readOnly := true |};
             {| action_name := "get_backup_s3_settings"; action_handler := method "HandleGetBackupS3Settings"; action_readOnly := true |};
             {| action_name := "create_backup"; action_handler := method "HandleCreateBackup"; action_readOnly := false |};
             {| action_name := "backup_to_s3"; action_handler := method "HandleBackupToS3"; action_readOnly := false |};
             {| action_name := "restore_from_s3"; action_handler := method "HandleRestoreFromS3"; action_readOnly := false |} ];
         def_annotation :=
           {| Title := "Manage Backups";
              ReadOnlyHint := boolPtr false;
              DestructiveHint := boolPtr true;
              IdempotentHint := boolPtr false;
              OpenWorldHint := boolPtr false |} |};
      {| def_name := "manage_webhooks";
         def_description :=
           "Manage webhooks for services and containers. Use the 'action' parameter to specify the operation.";
         def_actions :=
           [ {| action_name := "list_webhooks"; action_handler := method "HandleListWebhooks"; action_readOnly := true |};
             {| action_name := "create_webhook"; action_handler := method "HandleCreateWebhook"; action_readOnly := false |};
             {| action_name := "delete_webhook"; action_handler := method "HandleDeleteWebhook"; action_readOnly := false |} ];
         def_annotation :=
           {| Title := "Manage Webhooks";
              ReadOnlyHint := boolPtr false;
              DestructiveHint := boolPtr true;
              IdempotentHint := boolPtr false;
              OpenWorldHint := boolPtr false |} |};
      {| def_name := "manage_edge";
         def_description :=
           "Manage Edge jobs and Edge update schedules. Use the 'action' parameter to specify the operation.";
         def_actions :=
           [ {| action_name := "list_edge_jobs"; action_handler := method "HandleListEdgeJobs"; action_readOnly := true |};
             {| action_name := "get_edge_job"; action_handler := method "HandleGetEdgeJob"; action_readOnly := true |};
             {| action_name := "get_edge_job_file"; action_handler := method "HandleGetEdgeJobFile"; action_readOnly := true |};
             {| action_name := "create_edge_job"; action_handler := method "HandleCreateEdgeJob"; action_readOnly := false |};
             {| action_name := "delete_edge_job"; action_handler := method "HandleDeleteEdgeJob"; action_readOnly := false |};
             {| action_name := "list_edge_update_schedules"; action_handler := method "HandleListEdgeUpdateSchedules"; action_readOnly := true |} ];
         def_annotation :=
           {| Title := "Manage Edge";
              ReadOnlyHint := boolPtr false;
              DestructiveHint := boolPtr true;
              IdempotentHint := boolPtr false;
              OpenWorldHint := boolPtr false |} |};
      {| def_name := "manage_settings";
         def_description :=
           "Manage Portainer server settings, public settings, and SSL configuration. Use the 'action' parameter to specify the operation.";
         def_actions :=
           [ {| action_name := "get_settings"; action_handler := method "HandleGetSettings"; action_readOnly := true |};
             {| action_name := "get_public_settings"; action_handler := method "HandleGetPublicSettings"; action_readOnly := true |};
             {| action_name := "update_settings"; action_handler := method "HandleUpdateSettings"; action_readOnly := false |};
             {| action_name := "get_ssl_settings"; action_handler := method "HandleGetSSLSettings"; action_readOnly := true |};
             {| action_name := "update_ssl_settings"; action_handler := method "HandleUpdateSSLSettings"; action_readOnly := false |} ];
         def_annotation :=
           {| Title := "Manage Settings";
              ReadOnlyHint := boolPtr false;
              DestructiveHint := boolPtr false;
              IdempotentHint := boolPtr true;
              OpenWorldHint := boolPtr false |} |};
      {| def_name := "manage_system";
         def_description :=
           "System information, roles, message of the day, and authentication. Use the 'action' parameter to specify the operation.";
         def_actions :=
           [ {| action_name := "get_system_status"; action_handler := method "HandleGetSystemStatus"; action_readOnly := true |};
             {| action_name := "list_roles"; action_handler := method "HandleListRoles"; action_readOnly := true |};
             {| action_name := "get_motd"; action_handler := method "HandleGetMOTD"; action_readOnly := true |};
             {| action_name := "authenticate"; action_handler := method "HandleAuthenticateUser"; action_readOnly := true |};
             {| action_name := "logout"; action_handler := method "HandleLogout"; action_readOnly := false |} ];
         def_annotation :=
           {| Title := "Manage System";
              ReadOnlyHint := boolPtr false;
              DestructiveHint := boolPtr false;
              IdempotentHint := boolPtr false;
              OpenWorldHint := boolPtr false |} |}
    ].

(** [RegisterMetaTools]. *)
Definition RegisterMetaTools `{Methods} (s : PortainerMCPServer)
    : PortainerMCPServer :=
  let defs := metaToolDefinitions in
  registerAll s defs.

(** ** A runtime to run the model on

    A world that records which handler ran, a [range] that visits keys in
    the order of [elements], and handler methods that log their own name
    and answer with it. *)
Definition traceRuntime : Runtime :=
  {| World := list string;
     GoContext := unit;
     GoError := string;
     range_order := λ _ ks, elements ks |}.

Definition traceMethods : @Methods traceRuntime :=
  @Build_Methods traceRuntime
    (λ m _ _ _ (w : @World traceRuntime),
       ((w : list string) ++ [m], (Some (NewToolResultText m), None))).

Definition emptyServer (readOnlyMode : bool) : @PortainerMCPServer traceRuntime :=
  {| srv := {| tools := ∅ |}; readOnly := readOnlyMode |}.

(** The group of the specification's scenarios: one action that stays in
    read-only mode and one that does not. *)
Definition usersDef : @metaToolDef traceRuntime :=
  {| def_name := "users";
     def_description := "Manage users.";
     def_actions :=
       [ {| action_name := "list_users"; action_handler := @method _ traceMethods "HandleGetUsers"; action_readOnly := true |};
         {| action_name := "create_user"; action_handler := @method _ traceMethods "HandleCreateUser"; action_readOnly := false |} ];
     def_annotation :=
       {| Title := "Manage Users";
          ReadOnlyHint := boolPtr false;
          DestructiveHint := boolPtr true;
          IdempotentHint := boolPtr false;
          OpenWorldHint := boolPtr false |} |}.

(** A group whose only action has the empty string for a name. *)
Definition unnamedActionDef : @metaToolDef traceRuntime :=
  {| def_name := "blank";
     def_description := "A group with an unnamed action.";
     def_actions :=
       [ {| action_name := ""; action_handler := @method _ traceMethods "HandleBlank"; action_readOnly := true |} ];
     def_annotation :=
       {| Title := "Blank";
          ReadOnlyHint := boolPtr true;
          DestructiveHint := boolPtr false;
          IdempotentHint := boolPtr true;
          OpenWorldHint := boolPtr false |} |}.

(** A group of write actions only. *)
Definition writeOnlyDef : @metaToolDef traceRuntime :=
  {| def_name := "writes";
     def_description := "Write operations.";
     def_actions :=
       [ {| action_name := "create_team"; action_handler := @method _ traceMethods "HandleCreateTeam"; action_readOnly := false |};
         {| action_name := "delete_team"; action_handler := @method _ traceMethods "HandleDeleteTeam"; action_readOnly := false |} ];
     def_annotation :=
       {| Title := "Writes";
          ReadOnlyHint := boolPtr false;
          DestructiveHint := boolPtr true;
          IdempotentHint := boolPtr false;
          OpenWorldHint := boolPtr false |} |}.

(** A catalog that breaks both uniqueness rules: the group name ["users"]
    is declared twice, and ["list_users"] is an action of ["users"] and of
    ["accounts"]. *)
Definition accountsDef : @metaToolDef traceRuntime :=
  {| def_name := "accounts";
     def_description := "Manage accounts.";
     def_actions :=
       [ {| action_name := "list_users"; action_handler := @method _ traceMethods "HandleListAccounts"; action_readOnly := true |} ];
     def_annotation :=
       {| Title := "Manage Accounts";
          ReadOnlyHint := boolPtr true;
          DestructiveHint := boolPtr false;
          IdempotentHint := boolPtr true;
          OpenWorldHint := boolPtr false |} |}.

Definition duplicateCatalog : list (@metaToolDef traceRuntime) :=
  [usersDef; accountsDef; usersDef].

(** All the actions of a catalog, group after group. *)
Definition catalogActions `{Runtime} (defs : list metaToolDef) : list metaAction :=
  defs ≫= def_actions.

(** A call of a tool with the argument bag [{"action": action}]. *)
Definition callWith (tool : string) (action : any) : CallToolRequest :=
  {| ParamsName := tool; ParamsArguments := AnyMap {[ "action" := action ]} |}.

(** The mode filter as the specification words it: an action is kept iff
    the server is not read-only or the action is. *)
Definition kept `{Runtime} (readOnlyMode : bool) (a : metaAction) : Prop :=
  negb readOnlyMode || action_readOnly a.

#[global] Instance kept_dec `{Runtime} readOnlyMode a :
  Decision (kept readOnlyMode a).
Proof. unfold kept. apply _. Defined.

(** The group the shipped catalog registers as ["manage_users"], with the
    logging handlers. *)
Definition shippedUsersDef : @metaToolDef traceRuntime :=
  default usersDef (@metaToolDefinitions _ traceMethods !! 3).

(** A group that declares one name twice, first as a write action, then
    as a read-only one. *)
Definition homonymDef : @metaToolDef traceRuntime :=
  {| def_name := "pair";
     def_description := "Two actions under one name.";
     def_actions :=
       [ {| action_name := "sync"; action_handler := @method _ traceMethods "HandleSyncWrite"; action_readOnly := false |};
         {| action_name := "sync"; action_handler := @method _ traceMethods "HandleSyncRead"; action_readOnly := true |} ];
     def_annotation :=
       {| Title := "Pair";
          ReadOnlyHint := boolPtr false;
          DestructiveHint := boolPtr true;
          IdempotentHint := boolPtr false;
          OpenWorldHint := boolPtr false |} |}.

(** ** Helper functions of package mcp: parsing of list arguments *)

(** The error value of [fmt.Errorf(format, operand)] for a format with
    one [%v]: its message is the format with the verb replaced by the
    default rendering of the operand. Format and operand are kept
    apart; the rendering is not expanded. *)
Record FormatError : Type := Errorf {
  errorFormat : string;
  errorOperand : any
}.

(** [m[key]] on a [map[string]any]: the nil interface when the key is
    missing. *)
Definition index (m : gmap string any) (key : string) : any :=
  default AnyNil (m !! key).

(** The comma-ok assertion [v.(map[string]any)]. *)
Definition assertMap (v : any) : gmap string any * bool :=
  match v with
  | AnyMap m => (m, true)
  | _ => (∅, false)
  end.

(** The loop of [parseKeyValueMap], from any state of [resultMap]: the
    first item that does not fit ends it with an error. *)
Fixpoint parseKeyValueMap_from (items : list any) (resultMap : gmap string string)
    : FormatError + gmap string string :=
  match items with
  | [] => inr resultMap
  | item :: items =>
      let '(itemMap, ok) := assertMap item in
      if negb ok then inl (Errorf "invalid item: %v" item)
      else
        let '(key, ok) := assertString (index itemMap "key") in
        if negb ok then inl (Errorf "invalid key: %v" (index itemMap "key"))
        else
          let '(value, ok) := assertString (index itemMap "value") in
          if negb ok then inl (Errorf "invalid value: %v" (index itemMap "value"))
          else parseKeyValueMap_from items (<[key := value]> resultMap)
  end.

(** [parseKeyValueMap]: a list of objects with string fields ["key"] and
    ["value"] becomes a map. The Go function returns [(nil, err)] or
    [(resultMap, nil)]; the two cases are [inl err] and [inr resultMap]. *)
Definition parseKeyValueMap (items : list any) : FormatError + gmap string string :=
  parseKeyValueMap_from items ∅.

(** An item as a caller writes it for the pair [(key, value)], and the
    list of items for a map, one per binding. *)
Definition keyValueItem (kv : string * string) : any :=
  AnyMap {[ "key"%string := AnyString kv.1; "value"%string := AnyString kv.2 ]}.

Definition keyValueItems (m : gmap string string) : list any :=
  keyValueItem <$> map_to_list m.

(** An item [parseKeyValueMap] accepts, with the pair it stands for:
    an object whose ["key"] and ["value"] are strings, whatever else it
    holds. *)
Definition holdsKeyValue (item : any) (key value : string) : Prop :=
  ∃ itemMap : gmap string any,
    item = AnyMap itemMap
    ∧ itemMap !! "key" = Some (AnyString key)
    ∧ itemMap !! "value" = Some (AnyString value).

(** ** models/tag.go *)

(** [strconv.Atoi] on a 64-bit platform: an optional sign (the bytes 45
    and 43 are the minus and plus signs), then one or more decimal
    digits (bytes 48 to 57), and a value that fits [int]; [None] stands
    for the error. A Go string is its sequence of bytes. *)
Definition digitValue (ch : Ascii.ascii) : option Z :=
  let code := Z.of_nat (Ascii.nat_of_ascii ch) in
  if bool_decide (48 ≤ code ≤ 57)%Z then Some (code - 48)%Z else None.

Fixpoint digitsValue (s : string) (n : Z) : option Z :=
  match s with
  | EmptyString => Some n
  | String ch s => d ← digitValue ch; digitsValue s (n * 10 + d)%Z
  end.

Definition Atoi (s : string) : option Z :=
  let '(negative, digits) :=
    match s with
    | String ch rest =>
        if bool_decide (Ascii.nat_of_ascii ch = 45) then (true, rest)
        else if bool_decide (Ascii.nat_of_ascii ch = 43) then (false, rest)
        else (false, s)
    | EmptyString => (false, s)
    end in
  match digits with
  | EmptyString => None
  | _ =>
      n ← digitsValue digits 0;
      let n := if negative then (- n)%Z else n in
      if bool_decide (- 2 ^ 63 ≤ n < 2 ^ 63)%Z then Some n else None
  end.

(** [apimodels.PortainerTag] of the Portainer client SDK, with the
    fields the conversion reads. *)
Record PortainerTag : Type := mkPortainerTag {
  Tag_ID : Z;
  Tag_Name : string;
  Tag_Endpoints : gmap string bool
}.

(** [EnvironmentTag]. *)
Record EnvironmentTag : Type := mkEnvironmentTag {
  EnvironmentTag_ID : Z;
  EnvironmentTag_Name : string;
  EnvironmentTag_EnvironmentIds : list Z
}.

(** [ConvertTagToEnvironmentTag], run in world [w], which fixes the
    order of its [range] over the endpoint map. A nil [rawTag] is
    [None]; [int(rawTag.ID)] keeps the value of an [int64]. *)
Definition ConvertTagToEnvironmentTag `{Runtime} (w : World)
    (rawTag : option PortainerTag) : EnvironmentTag :=
  match rawTag with
  | None =>
      {| EnvironmentTag_ID := 0; EnvironmentTag_Name := "";
         EnvironmentTag_EnvironmentIds := [] |}
  | Some rawTag =>
      let environmentIDs :=
        foldl (λ environmentIDs endpointID,
                 match Atoi endpointID with
                 | Some id => environmentIDs ++ [id]
                 | None => environmentIDs
                 end)
              [] (range_order w (dom (Tag_Endpoints rawTag))) in
      {| EnvironmentTag_ID := Tag_ID rawTag;
         EnvironmentTag_Name := Tag_Name rawTag;
         EnvironmentTag_EnvironmentIds := environmentIDs |}
  end.

(** ** The status tool: models/system.go, client/system.go and the handler *)

(** The status record of the SDK, with the fields the conversion reads,
    and [SystemStatus]. *)
Record RawSystemStatus : Type := mkRawSystemStatus {
  Raw_Version : string;
  Raw_InstanceID : string
}.

Record SystemStatus : Type := mkSystemStatus {
  Version : string;
  InstanceID : string
}.

(** [ConvertToSystemStatus]. *)
Definition ConvertToSystemStatus (rawStatus : option RawSystemStatus) : SystemStatus :=
  match rawStatus with
  | None => {| Version := ""; InstanceID := "" |}
  | Some rawStatus =>
      {| Version := Raw_Version rawStatus; InstanceID := Raw_InstanceID rawStatus |}
  end.

(** What the status tool takes from outside the package: the text of an
    error ([err.Error()]), the error [fmt.Errorf(prefix + "%w", err)]
    that wraps another, the SDK call behind [c.cli.GetSystemStatus()],
    and [json.Marshal] on a [SystemStatus]. *)
Class Backend `{Runtime} : Type := {
  errorText : GoError → string;
  wrapError : string → GoError → GoError;
  sdkGetSystemStatus : World → World * (option RawSystemStatus * option GoError);
  marshalSystemStatus : SystemStatus → string * option GoError
}.

(** The message of a wrapping error is the prefix followed by the
    message of the wrapped one. *)
Definition wrapping_prefixes_text `{Backend} : Prop :=
  ∀ (prefix : string) (err : GoError),
    errorText (wrapError prefix err) = prefix +:+ errorText err.

(** [mcp.NewToolResultErrorFromErr]: the text, followed by the message
    of the error when there is one. *)
Definition NewToolResultErrorFromErr `{Backend} (text : string)
    (err : option GoError) : CallToolResult :=
  match err with
  | Some err => NewToolResultError (text +:+ ": " +:+ errorText err)
  | None => NewToolResultError text
  end.

(** [PortainerClient.GetSystemStatus] of client/system.go. *)
Definition client_GetSystemStatus `{Backend} (w : World)
    : World * (SystemStatus * option GoError) :=
  let '(w, (rawStatus, err)) := sdkGetSystemStatus w in
  match err with
  | Some err =>
      (w, ({| Version := ""; InstanceID := "" |},
           Some (wrapError "failed to get system status: " err)))
  | None => (w, (ConvertToSystemStatus rawStatus, None))
  end.

(** [HandleGetSystemStatus]. *)
Definition HandleGetSystemStatus `{Backend} : ToolHandlerFunc :=
  λ ctx request w,
    let '(w, (status, err)) := client_GetSystemStatus w in
    match err with
    | Some err =>
        (w, (Some (NewToolResultErrorFromErr "failed to get system status" (Some err)),
             None))
    | None =>
        let '(data, err) := marshalSystemStatus status in
        match err with
        | Some err =>
            (w, (Some (NewToolResultErrorFromErr "failed to marshal system status"
                                                 (Some err)), None))
        | None => (w, (Some (NewToolResultText data), None))
        end
    end.

(** A backend for the logging runtime: errors are their messages, the
    SDK call is logged and fails when the log already holds an entry,
    and the status is rendered as its two fields. *)
Definition traceBackend : @Backend traceRuntime :=
  @Build_Backend traceRuntime
    (λ err : string, err)
    (λ prefix (err : string), prefix +:+ err)
    (λ w : list string,
       ((w ++ ["GetSystemStatus"])%list,
        match w with
        | [] => (Some {| Raw_Version := "2.19.0"; Raw_InstanceID := "abc" |}, None)
        | _ => (None, Some "connection refused"%string)
        end))
    (λ status, (Version status +:+ "/" +:+ InstanceID status, None)).

(** Handler methods that give the modelled handler for
    [HandleGetSystemStatus] and the logging handler for the others. *)
Definition statusMethods : @Methods traceRuntime :=
  @Build_Methods traceRuntime
    (λ m s,
       if bool_decide (m = "HandleGetSystemStatus"%string)
       then @HandleGetSystemStatus traceRuntime traceBackend
       else @method _ traceMethods m s).

(** The shipped actions [list_users] and [create_user]. *)
Definition shippedListUsers : @metaAction traceRuntime :=
  default (mkMetaAction traceRuntime "" (@method _ traceMethods "") true)
          (def_actions shippedUsersDef !! 0).

Definition shippedCreateUser : @metaAction traceRuntime :=
  default (mkMetaAction traceRuntime "" (@method _ traceMethods "") true)
          (def_actions shippedUsersDef !! 2).

(** A list of items in which the key ["a"] comes twice, the second time
    with a field more, and a tag with numeric and other endpoint keys. *)
Definition sampleItems : list any :=
  [ keyValueItem ("a"%string, "1"%string);
    keyValueItem ("b"%string, "2"%string);
    AnyMap {[ "key"%string := AnyString "a"; "value"%string := AnyString "3";
              "note"%string := AnyNumber 1 ]} ].

Definition sampleTag : PortainerTag :=
  {| Tag_ID := 7;
     Tag_Name := "prod";
     Tag_Endpoints := {[ "1"%string := true; "+1"%string := false;
                         "x2"%string := true; "42"%string := false ]} |}.

(** ** Registration when a handler field is nil

    The [handler] field of a [metaAction] is a Go function value, and a
    function value may be nil: the call [a.handler(s)] in the second
    loop of [registerOneMetaTool] then panics and startup is aborted.
    Below, the action and group records, [registerOneMetaTool] and the
    loop of [RegisterMetaTools] are written once more with the field as
    an [option]; a result [None] is the panic. *)
Record nilableAction `{Runtime} : Type := mkNilableAction {
  nilable_name : string;
  nilable_handler : option (PortainerMCPServer → ToolHandlerFunc);
  nilable_readOnly : bool
}.

Record nilableToolDef `{Runtime} : Type := mkNilableToolDef {
  nilable_def_name : string;
  nilable_def_description : string;
  nilable_def_actions : list nilableAction;
  nilable_def_annotation : ToolAnnotation
}.

(** Lines 51-57 on actions with nilable handlers. *)
Fixpoint allReadOnlyNilable `{Runtime} (available : list nilableAction) : bool :=
  match available with
  | [] => true
  | a :: rest => if negb (nilable_readOnly a) then false else allReadOnlyNilable rest
  end.

(** [registerOneMetaTool]: the filter does not call the handlers; the
    loop of lines 43-46 calls the handler of each remaining action in
    turn and panics at the first that is nil, before any tool is added. *)
Definition registerOneMetaToolOrPanic `{Runtime} (s : PortainerMCPServer)
    (def : nilableToolDef) : option PortainerMCPServer :=
  let available :=
    foldl (λ available a,
             if readOnly s && negb (nilable_readOnly a)
             then available
             else available ++ [a])
          [] (nilable_def_actions def) in
  if bool_decide (length available = 0) then Some s
  else
    '(actionNames, handlers) ←
      foldl (λ state '(i, a),
               '(actionNames, handlers) ← state;
               handler ← nilable_handler a;
               Some (<[i := nilable_name a]> actionNames,
                     <[nilable_name a := handler s]> handlers))
            (Some (replicate (length available) ""%string,
                   (∅ : gmap string ToolHandlerFunc)))
            (imap pair available);
    let annotation := nilable_def_annotation def in
    let annotation :=
      if allReadOnlyNilable available
      then {| Title := Title annotation;
              ReadOnlyHint := boolPtr true;
              DestructiveHint := boolPtr false;
              IdempotentHint := IdempotentHint annotation;
              OpenWorldHint := OpenWorldHint annotation |}
      else annotation in
    let tool :=
      NewTool (nilable_def_name def)
        [ WithDescription (nilable_def_description def);
          WithToolAnnotation annotation;
          WithString "action"
            [ mcp_Required;
              mcp_Description ("The operation to perform. Available actions: " +:+
                               strings_Join actionNames ", ");
              mcp_Enum actionNames ] ] in
    Some {| srv := AddTool (srv s) tool
                     (makeMetaHandler (nilable_def_name def) handlers);
            readOnly := readOnly s |}.

(** The loop of [RegisterMetaTools]: a panic ends it. *)
Definition registerAllOrPanic `{Runtime} (s : PortainerMCPServer)
    (defs : list nilableToolDef) : option PortainerMCPServer :=
  foldl (λ state def, s ← state; registerOneMetaToolOrPanic s def) (Some s) defs.



(** A group whose write action has no handler. *)
Definition unsetHandlerDef : @nilableToolDef traceRuntime :=
  {| nilable_def_name := "users";
     nilable_def_description := "Manage users.";
     nilable_def_actions :=
       [ {| nilable_name := "list_users"; nilable_handler := Some (@method _ traceMethods "HandleGetUsers"); nilable_readOnly := true |};
         {| nilable_name := "create_user"; nilable_handler := None; nilable_readOnly := false |} ];
     nilable_def_annotation := def_annotation usersDef |}.

(** * Properties *)

Section Loops.
Context `{Runtime}.
Implicit Types (s : PortainerMCPServer) (def : metaToolDef).
Implicit Types (a : metaAction) (available actions : list metaAction).

Lemma filterActions_from readOnlyMode actions available :
  foldl (λ available a,
           if readOnlyMode && negb (action_readOnly a)
           then available else available ++ [a]) available actions
  = available ++ filter (kept readOnlyMode) actions.
Proof.
  revert available.
  induction actions as [|a actions IH]; intros available; simpl.
  - by rewrite app_nil_r.
  - rewrite IH.
    destruct (decide (kept readOnlyMode a)) as [Hk|Hk].
    + rewrite filter_cons_True by done.
      unfold kept in Hk. destruct readOnlyMode, (action_readOnly a); simpl in *;
        try done; by rewrite <- app_assoc.
    + rewrite filter_cons_False by done.
      unfold kept in Hk. by destruct readOnlyMode, (action_readOnly a).
Qed.

Lemma filterActions_filter readOnlyMode actions :
  filterActions readOnlyMode actions = filter (kept readOnlyMode) actions.
Proof. unfold filterActions. by rewrite filterActions_from. Qed.

(** The second loop, from any index [k] on: the names written so far
    are [done], the slots still to fill hold the empty string. *)
Lemma buildDispatch_from s available (done : list string)
    (handlers : gmap string ToolHandlerFunc) :
  foldl (λ '(actionNames, handlers) '(i, a),
           (<[i := action_name a]> actionNames,
            <[action_name a := action_handler a s]> handlers))
        (done ++ replicate (length available) ""%string, handlers)
        (imap (λ i a, (length done + i, a)) available)
  = (done ++ (action_name <$> available),
     foldl (λ handlers a, <[action_name a := action_handler a s]> handlers)
           handlers available).
Proof.
  revert done handlers.
  induction available as [|a available IH]; intros done handlers; simpl.
  - done.
  - rewrite Nat.add_0_r.
    rewrite insert_app_r_alt, Nat.sub_diag by lia. simpl.
    specialize (IH (done ++ [action_name a])
                   (<[action_name a := action_handler a s]> handlers)).
    etrans; [|etrans; [exact IH|]].
    + f_equal; [by rewrite <- app_assoc|].
      apply imap_ext. intros i x _. simpl.
      rewrite length_app. simpl. f_equal. lia.
    + by rewrite <- app_assoc.
Qed.

Lemma buildDispatch_eq s available :
  buildDispatch s available
  = (action_name <$> available,
     foldl (λ handlers a, <[action_name a := action_handler a s]> handlers)
           ∅ available).
Proof. unfold buildDispatch. by rewrite <- (buildDispatch_from s available []). Qed.

Lemma actionNamesOf_filter s def :
  actionNamesOf s def
  = action_name <$> filter (kept (readOnly s)) (def_actions def).
Proof.
  unfold actionNamesOf. by rewrite buildDispatch_eq, filterActions_filter.
Qed.

(** The dispatch map after the loop: a name is bound iff it was bound
    before or some action carries it, and the later action wins. *)
Lemma handlers_loop_dom s available (handlers : gmap string ToolHandlerFunc) :
  dom (foldl (λ handlers a, <[action_name a := action_handler a s]> handlers)
             handlers available)
  = dom handlers ∪ list_to_set (action_name <$> available).
Proof.
  revert handlers.
  induction available as [|a available IH]; intros handlers; simpl.
  - set_solver.
  - rewrite IH, dom_insert_L. set_solver.
Qed.

Lemma handlers_loop_lookup s available (handlers : gmap string ToolHandlerFunc) x :
  foldl (λ handlers a, <[action_name a := action_handler a s]> handlers)
        handlers available !! x
  = match last (filter (λ a, action_name a = x) available) with
    | Some a => Some (action_handler a s)
    | None => handlers !! x
    end.
Proof.
  revert handlers.
  induction available as [|a available IH]; intros handlers; simpl.
  - done.
  - rewrite IH.
    destruct (decide (action_name a = x)) as [Hx|Hx].
    + rewrite filter_cons_True by done.
      rewrite last_cons.
      destruct (last (filter _ available)); [done|].
      by rewrite <- Hx, lookup_insert_eq.
    + rewrite filter_cons_False by done.
      destruct (last (filter _ available)); [done|].
      by rewrite lookup_insert_ne.
Qed.

Lemma dispatchTable_dom s def :
  dom (dispatchTable s def) = list_to_set (actionNamesOf s def).
Proof.
  unfold dispatchTable, actionNamesOf.
  rewrite buildDispatch_eq. simpl. rewrite handlers_loop_dom. set_solver.
Qed.

Lemma dispatchTable_lookup s def x :
  dispatchTable s def !! x
  = (λ a, action_handler a s)
      <$> last (filter (λ a, action_name a = x)
                       (filter (kept (readOnly s)) (def_actions def))).
Proof.
  unfold dispatchTable. rewrite buildDispatch_eq, filterActions_filter. simpl.
  rewrite handlers_loop_lookup. by destruct (last _).
Qed.

Lemma allReadOnly_Forall available :
  allReadOnly available = true ↔ Forall (λ a, action_readOnly a = true) available.
Proof.
  induction available as [|a available IH]; simpl.
  - split; [constructor | done].
  - rewrite Forall_cons. destruct (action_readOnly a); simpl; naive_solver.
Qed.
End Loops.

Section Builder.
Lemma stringsOf_strings (l : list string) :
  stringsOf (AnySlice (AnyString <$> l)) = Some l.
Proof. simpl. by apply mapM_fmap_Some. Qed.

(** The ["action"] parameter as [registerOneMetaTool] declares it. *)
Lemma WithString_action (desc : string) (values : list string) (t : Tool) :
  WithString "action" [mcp_Required; mcp_Description desc; mcp_Enum values] t
  = {| Name := Name t; Description := Description t;
       InputSchema :=
         {| SchemaType := SchemaType (InputSchema t);
            Properties :=
              <["action" := AnyMap (<["enum" := AnySlice (AnyString <$> values)]>
                                    (<["description" := AnyString desc]>
                                     (<["type" := AnyString "string"]> ∅)))]>
                (Properties (InputSchema t));
            Required := Required (InputSchema t) ++ ["action"] |};
       Annotations := Annotations t |}.
Proof.
  unfold WithString, mcp_Required, mcp_Description, mcp_Enum. simpl foldl.
  rewrite !lookup_insert_ne, lookup_insert_eq by done. simpl.
  rewrite !delete_insert_ne, delete_insert_eq by done.
  by rewrite delete_insert_ne, delete_empty by done.
Qed.
End Builder.

Section Registration.
Context `{Runtime}.
Implicit Types (s : PortainerMCPServer) (def : metaToolDef).

Lemma registerOneMetaTool_skip s def :
  filter (kept (readOnly s)) (def_actions def) = [] →
  registerOneMetaTool s def = s.
Proof.
  intros Hnil. unfold registerOneMetaTool.
  rewrite filterActions_filter, Hnil. done.
Qed.

Lemma registerOneMetaTool_entry s def :
  filter (kept (readOnly s)) (def_actions def) ≠ [] →
  ∃ tool : Tool,
    registerOneMetaTool s def
    = {| srv := AddTool (srv s) tool
                  (makeMetaHandler (def_name def) (dispatchTable s def));
         readOnly := readOnly s |}
    ∧ Name tool = def_name def
    ∧ Description tool = def_description def
    ∧ Annotations tool
      = (if allReadOnly (filter (kept (readOnly s)) (def_actions def))
         then {| Title := Title (def_annotation def);
                 ReadOnlyHint := Some true;
                 DestructiveHint := Some false;
                 IdempotentHint := IdempotentHint (def_annotation def);
                 OpenWorldHint := OpenWorldHint (def_annotation def) |}
         else def_annotation def)
    ∧ enumOf tool "action" = Some (actionNamesOf s def)
    ∧ descriptionOf tool "action"
      = Some ("The operation to perform. Available actions: " +:+
              strings_Join (actionNamesOf s def) ", ")
    ∧ Required (InputSchema tool) = ["action"]
    ∧ dom (Properties (InputSchema tool)) = {["action"]}.
Proof.
  intros Hne. unfold registerOneMetaTool, dispatchTable, actionNamesOf.
  rewrite filterActions_filter.
  rewrite bool_decide_eq_false_2
    by (by destruct (filter _ (def_actions def))).
  destruct (buildDispatch _ _) as [actionNames handlers]. simpl fst; simpl snd.
  eexists. split; [reflexivity|].
  unfold NewTool. simpl foldl. rewrite WithString_action.
  unfold enumOf, descriptionOf, propertySchema. simpl.
  rewrite !lookup_insert_eq. simpl.
  rewrite lookup_insert_eq, lookup_insert_ne, lookup_insert_eq by done. simpl.
  rewrite mapM_fmap_Some by done.
  repeat split; done.
Qed.
End Registration.

Section Entries.
Context `{Runtime}.
Implicit Types (s : PortainerMCPServer) (def : metaToolDef).

(** What [registerOneMetaTool] leaves under the group's name when the
    group keeps an action. *)
Lemma registered_entry s def :
  filter (kept (readOnly s)) (def_actions def) ≠ [] →
  ∃ tool : Tool,
    tools (srv (registerOneMetaTool s def))
    = <[def_name def := {| ServerTool_Tool := tool;
                           ServerTool_Handler :=
                             makeMetaHandler (def_name def) (dispatchTable s def) |}]>
        (tools (srv s))
    ∧ Name tool = def_name def
    ∧ Annotations tool
      = (if allReadOnly (filter (kept (readOnly s)) (def_actions def))
         then {| Title := Title (def_annotation def);
                 ReadOnlyHint := Some true;
                 DestructiveHint := Some false;
                 IdempotentHint := IdempotentHint (def_annotation def);
                 OpenWorldHint := OpenWorldHint (def_annotation def) |}
         else def_annotation def)
    ∧ enumOf tool "action" = Some (actionNamesOf s def)
    ∧ descriptionOf tool "action"
      = Some ("The operation to perform. Available actions: " +:+
              strings_Join (actionNamesOf s def) ", ").
Proof.
  intros Hne.
  destruct (registerOneMetaTool_entry s def Hne)
    as (tool & -> & Hname & _ & Hann & Henum & Hdesc & _).
  exists tool. simpl. rewrite Hname. done.
Qed.

Lemma elem_of_kept_names s def n :
  n ∈ actionNamesOf s def
  ↔ ∃ a, a ∈ def_actions def
         ∧ negb (readOnly s) || action_readOnly a = true
         ∧ action_name a = n.
Proof.
  rewrite actionNamesOf_filter, list_elem_of_fmap.
  setoid_rewrite list_elem_of_filter. unfold kept.
  setoid_rewrite Is_true_true. naive_solver.
Qed.

(** C1. For every group definition and either value of the read-only
    flag: when no declared action passes the test
    [!readOnly || a.readOnly], registration leaves the server as it was
    (no entry is added for the group); otherwise the entry stored under
    the group's name has an ["action"] enum whose members are exactly
    the names of the declared actions that pass the test. *)
Theorem enum_is_filtered_action_set s def :
  match filter (kept (readOnly s)) (def_actions def) with
  | [] => registerOneMetaTool s def = s
  | _ :: _ =>
      ∃ (e : ServerTool) (enum : list string),
        tools (srv (registerOneMetaTool s def))
        = <[def_name def := e]> (tools (srv s))
        ∧ Name (ServerTool_Tool e) = def_name def
        ∧ enumOf (ServerTool_Tool e) "action" = Some enum
        ∧ ∀ n : string,
            n ∈ enum
            ↔ ∃ a, a ∈ def_actions def
                   ∧ negb (readOnly s) || action_readOnly a = true
                   ∧ action_name a = n
  end.
Proof.
  destruct (filter _ (def_actions def)) as [|a0 rest] eqn:Hkept.
  - by apply registerOneMetaTool_skip.
  - destruct (registered_entry s def) as (tool & Htools & Hname & _ & Henum & _).
    { by rewrite Hkept. }
    eexists _, (actionNamesOf s def). split; [exact Htools|].
    simpl. repeat split; try done; by apply elem_of_kept_names.
Qed.

(** C8. For every group that keeps an action, the ["action"] enum of
    its entry is the declared sequence of action names with the names of
    the excluded actions removed, so the relative order of declaration is
    preserved; the description of the parameter lists the same sequence,
    joined by [", "]. *)
Theorem enum_preserves_declared_order s def :
  filter (kept (readOnly s)) (def_actions def) ≠ [] →
  ∃ (e : ServerTool) (enum : list string),
    tools (srv (registerOneMetaTool s def)) !! def_name def = Some e
    ∧ enum = action_name <$> filter (kept (readOnly s)) (def_actions def)
    ∧ enum `sublist_of` (action_name <$> def_actions def)
    ∧ enumOf (ServerTool_Tool e) "action" = Some enum
    ∧ descriptionOf (ServerTool_Tool e) "action"
      = Some ("The operation to perform. Available actions: " +:+
              strings_Join enum ", ").
Proof.
  intros Hne.
  destruct (registered_entry s def Hne) as (tool & Htools & _ & _ & Henum & Hdesc).
  rewrite actionNamesOf_filter in Henum, Hdesc.
  eexists _, _. rewrite Htools, lookup_insert_eq.
  split; [done|]. split; [done|]. split; [|done].
  apply fmap_sublist, sublist_filter.
Qed.

(** C2. For every group that keeps an action: if every kept action is
    read-only, the annotation of the entry has [ReadOnlyHint = true] and
    [DestructiveHint = false], whatever the group declares; otherwise
    the annotation of the entry is the declared annotation. *)
Theorem annotation_forced_when_all_read_only s def :
  filter (kept (readOnly s)) (def_actions def) ≠ [] →
  ∃ e : ServerTool,
    tools (srv (registerOneMetaTool s def)) !! def_name def = Some e
    ∧ if bool_decide (Forall (λ a, action_readOnly a = true)
                             (filter (kept (readOnly s)) (def_actions def)))
      then ReadOnlyHint (Annotations (ServerTool_Tool e)) = Some true
           ∧ DestructiveHint (Annotations (ServerTool_Tool e)) = Some false
      else Annotations (ServerTool_Tool e) = def_annotation def.
Proof.
  intros Hne.
  destruct (registered_entry s def Hne) as (tool & Htools & _ & Hann & _).
  eexists. rewrite Htools, lookup_insert_eq. split; [done|]. simpl.
  rewrite Hann. case_bool_decide as Hall.
  - apply allReadOnly_Forall in Hall. by rewrite Hall.
  - destruct (allReadOnly _) eqn:Hloop; [|done].
    by apply allReadOnly_Forall in Hloop.
Qed.

(** C9. When every kept action is read-only, the annotation of the entry
    is the declared annotation with [ReadOnlyHint] and [DestructiveHint]
    replaced: [Title], [IdempotentHint] and [OpenWorldHint] are the
    declared ones. *)
Theorem forced_annotation_keeps_other_fields s def :
  filter (kept (readOnly s)) (def_actions def) ≠ [] →
  Forall (λ a, action_readOnly a = true)
         (filter (kept (readOnly s)) (def_actions def)) →
  ∃ e : ServerTool,
    tools (srv (registerOneMetaTool s def)) !! def_name def = Some e
    ∧ Annotations (ServerTool_Tool e)
      = {| Title := Title (def_annotation def);
           ReadOnlyHint := Some true;
           DestructiveHint := Some false;
           IdempotentHint := IdempotentHint (def_annotation def);
           OpenWorldHint := OpenWorldHint (def_annotation def) |}.
Proof.
  intros Hne Hall.
  destruct (registered_entry s def Hne) as (tool & Htools & _ & Hann & _).
  eexists. rewrite Htools, lookup_insert_eq. split; [done|]. simpl.
  apply allReadOnly_Forall in Hall. by rewrite Hann, Hall.
Qed.
End Entries.

Section Dispatch.
Context `{Runtime}.
Implicit Types (s : PortainerMCPServer) (def : metaToolDef).
Implicit Types (handlers : gmap string ToolHandlerFunc).
Implicit Types (ctx : GoContext) (request : CallToolRequest) (w : World).
Implicit Types (h : ToolHandlerFunc).

Lemma collect_keys (ks acc : list string) :
  foldl (λ available k, available ++ [k]) acc ks = acc ++ ks.
Proof.
  revert acc. induction ks as [|k ks IH]; intros acc; simpl.
  - by rewrite app_nil_r.
  - by rewrite IH, <- app_assoc.
Qed.

Lemma makeMetaHandler_forward metaToolName handlers ctx request w x h :
  GetArguments request !! "action" = Some (AnyString x) →
  x ≠ ""%string →
  handlers !! x = Some h →
  makeMetaHandler metaToolName handlers ctx request w = h ctx request w.
Proof.
  intros Harg Hx Hh. unfold makeMetaHandler. rewrite Harg.
  cbn [assertString negb orb].
  rewrite bool_decide_eq_false_2 by done. by rewrite Hh.
Qed.

Lemma makeMetaHandler_missing metaToolName handlers ctx request w :
  GetArguments request !! "action" = None →
  makeMetaHandler metaToolName handlers ctx request w
  = (w, (Some (NewToolResultError "missing required parameter: action"), None)).
Proof. intros Harg. unfold makeMetaHandler. by rewrite Harg. Qed.

Lemma makeMetaHandler_malformed metaToolName handlers ctx request w v :
  GetArguments request !! "action" = Some v →
  (∀ x, v = AnyString x → x = ""%string) →
  makeMetaHandler metaToolName handlers ctx request w
  = (w, (Some (NewToolResultError
                 "parameter 'action' must be a non-empty string"), None)).
Proof.
  intros Harg Hv. unfold makeMetaHandler. rewrite Harg.
  destruct v as [| | |x| |]; simpl; try done.
  by rewrite (Hv x eq_refl).
Qed.

Lemma makeMetaHandler_unknown metaToolName handlers ctx request w x :
  GetArguments request !! "action" = Some (AnyString x) →
  x ≠ ""%string →
  handlers !! x = None →
  makeMetaHandler metaToolName handlers ctx request w
  = (w, (Some (NewToolResultError
                 ("unknown action '" +:+ x +:+ "' for tool '" +:+
                  metaToolName +:+ "'. Available actions: " +:+
                  strings_Join (range_order w (dom handlers)) ", ")), None)).
Proof.
  intros Harg Hx Hh. unfold makeMetaHandler. rewrite Harg.
  cbn [assertString negb orb].
  rewrite bool_decide_eq_false_2 by done. by rewrite Hh, collect_keys.
Qed.

(** C3, as amended. For every group that keeps an action and every call
    whose ["action"] argument is a non-empty string [x] bound in the
    dispatch table of the group's entry, the handler of the entry
    behaves as the handler [h] bound to [x] called with the same
    context, the whole request and the same world: same result, same
    error, same effect. [h] is the handler of a kept action named [x]. *)
Theorem dispatch_runs_bound_handler s def ctx request w x h :
  filter (kept (readOnly s)) (def_actions def) ≠ [] →
  GetArguments request !! "action" = Some (AnyString x) →
  x ≠ ""%string →
  dispatchTable s def !! x = Some h →
  ∃ e : ServerTool,
    tools (srv (registerOneMetaTool s def)) !! def_name def = Some e
    ∧ ServerTool_Handler e ctx request w = h ctx request w
    ∧ ∃ a, a ∈ def_actions def
           ∧ negb (readOnly s) || action_readOnly a = true
           ∧ action_name a = x
           ∧ h = action_handler a s.
Proof.
  intros Hne Harg Hx Hh.
  destruct (registered_entry s def Hne) as (tool & Htools & _).
  eexists. rewrite Htools, lookup_insert_eq. split; [done|]. simpl.
  split; [by eapply makeMetaHandler_forward|].
  rewrite dispatchTable_lookup in Hh.
  destruct (last _) as [a|] eqn:Hlast; [|done].
  apply last_Some_elem_of in Hlast.
  apply list_elem_of_filter in Hlast as [Hname Hlast].
  apply list_elem_of_filter in Hlast as [Hkept Hin].
  exists a. unfold kept in Hkept. apply Is_true_true in Hkept.
  simpl in Hh. naive_solver.
Qed.

(** C4. For every group that keeps an action and every call whose
    ["action"] argument is missing, is not a string, is the empty
    string, or is a string not bound in the dispatch table of the
    entry: the handler of the entry returns an error result (a
    [CallToolResult] with [IsError] set and a text message) with a nil
    Go error, and the world is left as it was. No handler runs: any
    other dispatch table with the same keys gives the same answer. *)
Theorem dispatch_rejects_without_running_handler s def ctx request w :
  filter (kept (readOnly s)) (def_actions def) ≠ [] →
  GetArguments request !! "action" = None
  ∨ (∃ v, GetArguments request !! "action" = Some v ∧ ∀ x, v ≠ AnyString x)
  ∨ GetArguments request !! "action" = Some (AnyString "")
  ∨ (∃ x, GetArguments request !! "action" = Some (AnyString x)
          ∧ dispatchTable s def !! x = None) →
  ∃ (e : ServerTool) (message : string),
    tools (srv (registerOneMetaTool s def)) !! def_name def = Some e
    ∧ ServerTool_Handler e ctx request w
      = (w, (Some {| ResultContent := [TextContent message]; IsError := true |},
             None))
    ∧ ∀ handlers,
        dom handlers = dom (dispatchTable s def) →
        makeMetaHandler (def_name def) handlers ctx request w
        = ServerTool_Handler e ctx request w.
Proof.
  intros Hne Hcases.
  destruct (registered_entry s def Hne) as (tool & Htools & _).
  assert (∀ handlers, dom handlers = dom (dispatchTable s def) →
          ∃ message,
            makeMetaHandler (def_name def) handlers ctx request w
            = (w, (Some (NewToolResultError message), None))
            ∧ makeMetaHandler (def_name def) (dispatchTable s def) ctx request w
              = (w, (Some (NewToolResultError message), None)))
    as Hsame.
  { intros handlers Hdom.
    destruct Hcases as [Hmiss|[(v & Hv & Hnot)|[Hempty|(x & Hx & Hnone)]]].
    - eexists. by rewrite !makeMetaHandler_missing.
    - eexists. rewrite !(makeMetaHandler_malformed _ _ _ _ _ v); naive_solver.
    - eexists.
      rewrite !(makeMetaHandler_malformed _ _ _ _ _ (AnyString "")); naive_solver.
    - destruct (decide (x = ""%string)) as [->|Hx0].
      + eexists.
        rewrite !(makeMetaHandler_malformed _ _ _ _ _ (AnyString "")); naive_solver.
      + eexists.
        rewrite !(makeMetaHandler_unknown _ _ _ _ _ x), Hdom; try done.
        apply not_elem_of_dom. rewrite Hdom. by apply not_elem_of_dom. }
  destruct (Hsame _ eq_refl) as (message & Hrun & _).
  eexists _, message. rewrite Htools, lookup_insert_eq. split; [done|]. simpl.
  split; [exact Hrun|].
  intros handlers Hdom.
  destruct (Hsame handlers Hdom) as (message' & -> & ->). done.
Qed.

(** C5. Let [range] visit every key of a map once. For every group that
    keeps an action and every call whose ["action"] argument is a
    non-empty string [x] not bound in the dispatch table of the entry,
    the entry answers with the error message
    [unknown action 'x' for tool 'name'. Available actions: ...] where
    the list after the colon has, as members, exactly the names of the
    ["action"] enum of the entry, that is the names of the declared
    actions that pass the mode filter; the name of an action, of this
    group or of another, that is not among them is not in the list. *)
Theorem unknown_action_lists_filtered_names s def ctx request w x :
  range_visits_each_key_once →
  filter (kept (readOnly s)) (def_actions def) ≠ [] →
  GetArguments request !! "action" = Some (AnyString x) →
  x ≠ ""%string →
  dispatchTable s def !! x = None →
  ∃ (e : ServerTool) (listed enum : list string),
    tools (srv (registerOneMetaTool s def)) !! def_name def = Some e
    ∧ ServerTool_Handler e ctx request w
      = (w, (Some (NewToolResultError
                     ("unknown action '" +:+ x +:+ "' for tool '" +:+
                      def_name def +:+ "'. Available actions: " +:+
                      strings_Join listed ", ")), None))
    ∧ enumOf (ServerTool_Tool e) "action" = Some enum
    ∧ (∀ n, n ∈ listed ↔ n ∈ enum)
    ∧ (∀ n, n ∈ listed
            ↔ ∃ a, a ∈ def_actions def
                   ∧ negb (readOnly s) || action_readOnly a = true
                   ∧ action_name a = n)
    ∧ (∀ a : metaAction, action_name a ∉ enum → action_name a ∉ listed).
Proof.
  intros Hrange Hne Harg Hx Hnone.
  destruct (registered_entry s def Hne) as (tool & Htools & _ & _ & Henum & _).
  exists {| ServerTool_Tool := tool;
            ServerTool_Handler :=
              makeMetaHandler (def_name def) (dispatchTable s def) |},
         (range_order w (dom (dispatchTable s def))), (actionNamesOf s def).
  rewrite Htools, lookup_insert_eq. split; [done|]. simpl.
  split; [by apply makeMetaHandler_unknown|]. split; [done|].
  assert (∀ n, n ∈ range_order w (dom (dispatchTable s def))
               ↔ n ∈ actionNamesOf s def) as Hmem.
  { intros n. rewrite (Hrange w), elem_of_elements, dispatchTable_dom.
    apply elem_of_list_to_set. }
  split; [exact Hmem|]. split.
  - intros n. rewrite Hmem. apply elem_of_kept_names.
  - intros a Hout. by rewrite Hmem.
Qed.
End Dispatch.

Section Startup.
Context `{Runtime}.
Implicit Types (s : PortainerMCPServer) (def : metaToolDef).
Implicit Types (defs : list metaToolDef).

Lemma kept_nonempty_Exists (readOnlyMode : bool) (actions : list metaAction) :
  filter (kept readOnlyMode) actions ≠ [] ↔ Exists (kept readOnlyMode) actions.
Proof.
  rewrite Exists_exists. split.
  - destruct (filter _ actions) as [|a rest] eqn:Hf; [done|]. intros _.
    assert (a ∈ filter (kept readOnlyMode) actions) as Ha
      by (rewrite Hf; left).
    apply list_elem_of_filter in Ha. exists a. tauto.
  - intros (a & Hin & Hk) Hnil.
    assert (a ∈ filter (kept readOnlyMode) actions) as Ha
      by by apply list_elem_of_filter.
    rewrite Hnil in Ha. by apply elem_of_nil in Ha.
Qed.

Lemma registerOneMetaTool_readOnly s def :
  readOnly (registerOneMetaTool s def) = readOnly s.
Proof.
  destruct (decide (filter (kept (readOnly s)) (def_actions def) = []))
    as [Hnil|Hne].
  - by rewrite registerOneMetaTool_skip.
  - by destruct (registerOneMetaTool_entry s def Hne) as (tool & -> & _).
Qed.

Lemma registerOneMetaTool_dom s def :
  dom (tools (srv (registerOneMetaTool s def)))
  = dom (tools (srv s))
    ∪ (if decide (Exists (kept (readOnly s)) (def_actions def))
       then {[def_name def]} else ∅).
Proof.
  case_decide as Hex.
  - apply kept_nonempty_Exists in Hex.
    destruct (registered_entry s def Hex) as (tool & -> & _).
    rewrite dom_insert_L. set_solver.
  - rewrite registerOneMetaTool_skip; [set_solver|].
    destruct (decide (filter (kept (readOnly s)) (def_actions def) = []))
      as [|Hne]; [done|].
    by apply kept_nonempty_Exists in Hne.
Qed.

Lemma registerAll_readOnly s defs :
  readOnly (registerAll s defs) = readOnly s.
Proof.
  revert s. induction defs as [|def defs IH]; intros s; simpl; [done|].
  unfold registerAll in *. simpl. by rewrite IH, registerOneMetaTool_readOnly.
Qed.

Lemma registerAll_dom s defs :
  dom (tools (srv (registerAll s defs)))
  = dom (tools (srv s))
    ∪ list_to_set
        (def_name <$> filter (λ def, Exists (kept (readOnly s)) (def_actions def))
                             defs).
Proof.
  revert s. induction defs as [|def defs IH]; intros s.
  - simpl. set_solver.
  - unfold registerAll in *. simpl foldl.
    rewrite IH, registerOneMetaTool_dom, registerOneMetaTool_readOnly.
    case_decide as Hex.
    + rewrite filter_cons_True by done. set_solver.
    + rewrite filter_cons_False by done. set_solver.
Qed.

End Startup.

Section NilHandlers.
Context `{Runtime}.
Implicit Types (s : PortainerMCPServer) (def : metaToolDef).
Implicit Types (defs : list metaToolDef).







End NilHandlers.

Section Catalog.
Context `{Methods}.

Lemma catalog_action_names_NoDup :
  NoDup (action_name <$> catalogActions metaToolDefinitions).
Proof. apply (bool_decide_unpack _). by vm_compute. Qed.

Lemma catalog_group_names_NoDup :
  NoDup (def_name <$> metaToolDefinitions).
Proof. apply (bool_decide_unpack _). by vm_compute. Qed.

(** No action of the shipped catalog has the empty name, so every
    name of its enums can be selected by a call. *)
Lemma catalog_action_names_nonempty :
  Forall (λ a, action_name a ≠ ""%string) (catalogActions metaToolDefinitions).
Proof. apply (bool_decide_unpack _). by vm_compute. Qed.

(** In read-only mode the name of a write action of a shipped group is
    not among the names the group keeps. *)
Lemma catalog_write_names_filtered :
  Forall (λ def,
            Forall (λ a, action_readOnly a = false →
                         action_name a
                         ∉ action_name <$> filter (kept true) (def_actions def))
                   (def_actions def))
         metaToolDefinitions.
Proof. apply (bool_decide_unpack _). by vm_compute. Qed.

(** C6. In the catalog returned by [metaToolDefinitions], the names of
    the actions of all groups taken together are pairwise distinct, and
    so are the names of the groups. *)
Theorem catalog_names_unique :
  NoDup (action_name <$> catalogActions metaToolDefinitions)
  ∧ NoDup (def_name <$> metaToolDefinitions).
Proof.
  split; [apply catalog_action_names_NoDup | apply catalog_group_names_NoDup].
Qed.

Lemma catalog_groups_keep_an_action (readOnlyMode : bool) :
  filter (λ def, Exists (kept readOnlyMode) (def_actions def)) metaToolDefinitions
  = metaToolDefinitions.
Proof.
  assert (Forall (λ def, Exists (λ a, action_readOnly a = true) (def_actions def))
                 metaToolDefinitions) as Hall
    by (apply (bool_decide_unpack _); by vm_compute).
  induction Hall as [|def defs Hdef _ IH]; [done|].
  rewrite filter_cons_True, IH; [done|].
  eapply Exists_impl; [exact Hdef|]. intros a Ha. unfold kept.
  rewrite Ha. by destruct readOnlyMode.
Qed.

(** C10. The shipped catalog has 15 groups and each of them declares an
    action with [readOnly == true]. Hence, whether the server is
    read-only or not, [RegisterMetaTools] registers a tool under the
    name of every one of the 15 groups: on a server without tools, 15
    tools are registered, one per group name. *)
Theorem catalog_registers_every_group :
  length metaToolDefinitions = 15
  ∧ Forall (λ def, Exists (λ a, action_readOnly a = true) (def_actions def))
           metaToolDefinitions
  ∧ (∀ s : PortainerMCPServer,
       dom (tools (srv (RegisterMetaTools s)))
       = dom (tools (srv s)) ∪ list_to_set (def_name <$> metaToolDefinitions))
  ∧ (∀ readOnlyMode : bool,
       size (tools (srv (RegisterMetaTools
                           {| srv := {| tools := ∅ |};
                              readOnly := readOnlyMode |}))) = 15).
Proof.
  split; [done|].
  split; [apply (bool_decide_unpack _); by vm_compute|].
  assert (∀ s : PortainerMCPServer,
            dom (tools (srv (RegisterMetaTools s)))
            = dom (tools (srv s)) ∪ list_to_set (def_name <$> metaToolDefinitions))
    as Hdom.
  { intros s. unfold RegisterMetaTools.
    by rewrite registerAll_dom, catalog_groups_keep_an_action. }
  split; [exact Hdom|].
  intros readOnlyMode. rewrite <- size_dom, Hdom. cbn [srv tools].
  rewrite dom_empty_L, union_empty_l_L.
  rewrite size_list_to_set by apply catalog_group_names_NoDup. done.
Qed.
End Catalog.

(** ** The model run on small catalogs *)

(** Scenario A of the specification: in read-only mode the enum of
    ["users"] is [["list_users"]]; otherwise both actions are listed. *)
Example users_enum_read_only :
  registeredEnum (srv (registerOneMetaTool (emptyServer true) usersDef)) "users"
  = Some ["list_users"].
Proof. reflexivity. Qed.

Example users_enum_unrestricted :
  registeredEnum (srv (registerOneMetaTool (emptyServer false) usersDef)) "users"
  = Some ["list_users"; "create_user"].
Proof. reflexivity. Qed.

(** Scenario B: a group of write actions is skipped in read-only mode. *)
Example write_only_group_skipped :
  registerOneMetaTool (emptyServer true) writeOnlyDef = emptyServer true.
Proof. reflexivity. Qed.

(** Scenario C: a filtered-out action is unknown, and the message lists
    the one action left. No handler has logged a call. *)
Example create_user_unknown_when_read_only :
  CallTool (srv (registerOneMetaTool (emptyServer true) usersDef)) ()
           (callWith "users" (AnyString "create_user")) []
  = Some ([], (Some (NewToolResultError
                       "unknown action 'create_user' for tool 'users'. Available actions: list_users"),
               None)).
Proof. reflexivity. Qed.

(** Scenario D: an empty argument bag. *)
Example missing_action_rejected :
  CallTool (srv (registerOneMetaTool (emptyServer false) usersDef)) ()
           {| ParamsName := "users"; ParamsArguments := AnyMap ∅ |} []
  = Some ([], (Some (NewToolResultError "missing required parameter: action"), None)).
Proof. reflexivity. Qed.

(** A routed call: the handler of [create_user] logs its name. *)
Example create_user_routed :
  CallTool (srv (registerOneMetaTool (emptyServer false) usersDef)) ()
           (callWith "users" (AnyString "create_user")) []
  = Some (["HandleCreateUser"], (Some (NewToolResultText "HandleCreateUser"), None)).
Proof. reflexivity. Qed.

(** The unnamed action: its name is in the enum and in the dispatch
    table, yet a call that selects it is rejected before the lookup. *)
Example unnamed_action_rejected :
  registeredEnum (srv (registerOneMetaTool (emptyServer false) unnamedActionDef)) "blank"
  = Some [""]
  ∧ CallTool (srv (registerOneMetaTool (emptyServer false) unnamedActionDef)) ()
             (callWith "blank" (AnyString "")) []
    = Some ([], (Some (NewToolResultError
                         "parameter 'action' must be a non-empty string"), None)).
Proof. split; reflexivity. Qed.

(** C3 fails as stated: a string bound in the dispatch table of a
    registered entry need not reach its handler. The entry of
    [unnamedActionDef] binds the empty string to [HandleBlank]; the call
    with [action = ""] returns the error result and [HandleBlank], which
    would have logged its name, has not run. *)
Lemma bound_action_not_always_dispatched :
  ¬ (∀ (R : Runtime) (s : PortainerMCPServer) (def : metaToolDef)
       (ctx : GoContext) (request : CallToolRequest) (w : World)
       (x : string) (h : ToolHandlerFunc),
       filter (kept (readOnly s)) (def_actions def) ≠ [] →
       GetArguments request !! "action" = Some (AnyString x) →
       dispatchTable s def !! x = Some h →
       ∃ e : ServerTool,
         tools (srv (registerOneMetaTool s def)) !! def_name def = Some e
         ∧ ServerTool_Handler e ctx request w = h ctx request w).
Proof.
  intros Hclaim.
  destruct (Hclaim traceRuntime (emptyServer false) unnamedActionDef ()
                   (callWith "blank" (AnyString "")) [] ""%string
                   (@method _ traceMethods "HandleBlank" (emptyServer false)))
    as (e & He & Hrun); [done..|].
  vm_compute in He. injection He as <-.
  vm_compute in Hrun. discriminate Hrun.
Qed.

(** With a handler that is not set the model of registration does
    abort: on a server that is not read-only the nil handler of
    [create_user] is called and panics; on a read-only server that action
    is filtered out before its handler is asked for. *)
Example unset_handler_panics_when_kept :
  registerAllOrPanic (emptyServer false) [unsetHandlerDef] = None
  ∧ registerAllOrPanic (emptyServer true) [unsetHandlerDef]
    = Some (registerOneMetaTool (emptyServer true) usersDef).
Proof. split; reflexivity. Qed.


(** ** The theorems at concrete inputs *)

Lemma enum_preserves_declared_order_witness :
  filter (kept true) (def_actions usersDef) ≠ []
  ∧ ∃ (e : ServerTool) (enum : list string),
      tools (srv (registerOneMetaTool (emptyServer true) usersDef)) !! "users" = Some e
      ∧ enum = action_name <$> filter (kept true) (def_actions usersDef)
      ∧ enum `sublist_of` (action_name <$> def_actions usersDef)
      ∧ enumOf (ServerTool_Tool e) "action" = Some enum
      ∧ descriptionOf (ServerTool_Tool e) "action"
        = Some ("The operation to perform. Available actions: " +:+
                strings_Join enum ", ").
Proof.
  split; [done|].
  apply (enum_preserves_declared_order (emptyServer true) usersDef). done.
Defined.

Lemma annotation_forced_when_all_read_only_witness :
  filter (kept true) (def_actions usersDef) ≠ []
  ∧ ∃ e : ServerTool,
      tools (srv (registerOneMetaTool (emptyServer true) usersDef)) !! "users" = Some e
      ∧ ReadOnlyHint (Annotations (ServerTool_Tool e)) = Some true
      ∧ DestructiveHint (Annotations (ServerTool_Tool e)) = Some false.
Proof.
  split; [done|].
  apply (annotation_forced_when_all_read_only (emptyServer true) usersDef). done.
Defined.

Lemma forced_annotation_keeps_other_fields_witness :
  filter (kept true) (def_actions usersDef) ≠ []
  ∧ Forall (λ a, action_readOnly a = true) (filter (kept true) (def_actions usersDef))
  ∧ ∃ e : ServerTool,
      tools (srv (registerOneMetaTool (emptyServer true) usersDef)) !! "users" = Some e
      ∧ Annotations (ServerTool_Tool e)
        = {| Title := "Manage Users";
             ReadOnlyHint := Some true;
             DestructiveHint := Some false;
             IdempotentHint := Some false;
             OpenWorldHint := Some false |}.
Proof.
  split; [done|]. split; [by repeat constructor|].
  apply (forced_annotation_keeps_other_fields (emptyServer true) usersDef);
    [done | by repeat constructor].
Defined.

Lemma dispatch_runs_bound_handler_witness :
  ∃ e : ServerTool,
    tools (srv (registerOneMetaTool (emptyServer false) usersDef)) !! "users" = Some e
    ∧ ServerTool_Handler e () (callWith "users" (AnyString "create_user")) []
      = (["HandleCreateUser"], (Some (NewToolResultText "HandleCreateUser"), None))
    ∧ ∃ a, a ∈ def_actions usersDef
           ∧ negb false || action_readOnly a = true
           ∧ action_name a = "create_user"%string
           ∧ @method _ traceMethods "HandleCreateUser" (emptyServer false)
             = action_handler a (emptyServer false).
Proof.
  apply (dispatch_runs_bound_handler (emptyServer false) usersDef ()
           (callWith "users" (AnyString "create_user")) [] "create_user"
           (@method _ traceMethods "HandleCreateUser" (emptyServer false)));
    [done | reflexivity | done | reflexivity].
Defined.

Lemma dispatch_rejects_without_running_handler_witness :
  ∃ (e : ServerTool) (message : string),
    tools (srv (registerOneMetaTool (emptyServer false) usersDef)) !! "users" = Some e
    ∧ ServerTool_Handler e () (callWith "users" (AnyNumber 42)) []
      = ([], (Some {| ResultContent := [TextContent message]; IsError := true |}, None))
    ∧ ∀ handlers : gmap string (@ToolHandlerFunc traceRuntime),
        dom handlers = dom (dispatchTable (emptyServer false) usersDef) →
        makeMetaHandler "users" handlers () (callWith "users" (AnyNumber 42)) []
        = ServerTool_Handler e () (callWith "users" (AnyNumber 42)) [].
Proof.
  apply (dispatch_rejects_without_running_handler (emptyServer false) usersDef ()
           (callWith "users" (AnyNumber 42)) []); [done|].
  right. left. exists (AnyNumber 42). split; [reflexivity | discriminate].
Defined.

Lemma unknown_action_lists_filtered_names_witness :
  ∃ (e : ServerTool) (listed enum : list string),
    tools (srv (registerOneMetaTool (emptyServer true) usersDef)) !! "users" = Some e
    ∧ ServerTool_Handler e () (callWith "users" (AnyString "create_user")) []
      = ([], (Some (NewToolResultError
                      ("unknown action '" +:+ "create_user" +:+ "' for tool '" +:+
                       "users" +:+ "'. Available actions: " +:+
                       strings_Join listed ", ")), None))
    ∧ enumOf (ServerTool_Tool e) "action" = Some enum
    ∧ (∀ n, n ∈ listed ↔ n ∈ enum)
    ∧ (∀ n, n ∈ listed
            ↔ ∃ a, a ∈ def_actions usersDef
                   ∧ negb true || action_readOnly a = true
                   ∧ action_name a = n)
    ∧ (∀ a : @metaAction traceRuntime,
         action_name a ∉ enum → action_name a ∉ listed).
Proof.
  apply (unknown_action_lists_filtered_names (emptyServer true) usersDef ()
           (callWith "users" (AnyString "create_user")) [] "create_user");
    [by intros w ks | done | reflexivity | done | reflexivity].
Defined.

(** * Further properties of the registry *)

Section Table.
Context `{Runtime}.
Implicit Types (s : PortainerMCPServer) (def : metaToolDef).
Implicit Types (a : metaAction) (h : ToolHandlerFunc).

Lemma kept_true_readOnly a : kept true a ↔ action_readOnly a = true.
Proof. unfold kept. simpl. apply Is_true_true. Qed.

Lemma kept_false a : kept false a.
Proof. unfold kept. done. Qed.

Lemma filter_kept_false (actions : list metaAction) :
  filter (kept false) actions = actions.
Proof.
  induction actions as [|a actions IH]; [done|].
  rewrite filter_cons_True by apply kept_false. by rewrite IH.
Qed.

Lemma dispatchTable_last_homonym s def before a after :
  def_actions def = before ++ a :: after →
  kept (readOnly s) a →
  Forall (λ b, kept (readOnly s) b → action_name b ≠ action_name a) after →
  dispatchTable s def !! action_name a = Some (action_handler a s).
Proof.
  intros Hactions Hkept Hlater.
  rewrite dispatchTable_lookup, Hactions.
  rewrite !filter_app, !filter_cons_True by done.
  assert (filter (λ b, action_name b = action_name a)
                 (filter (kept (readOnly s)) after) = []) as ->.
  { clear Hactions. induction Hlater as [|b after Hb _ IH]; [done|].
    destruct (decide (kept (readOnly s) b)) as [Hk|Hk].
    - rewrite (filter_cons_True (kept _)) by done.
      rewrite filter_cons_False by (by apply Hb). exact IH.
    - by rewrite (filter_cons_False (kept _)) by done. }
  by rewrite last_snoc.
Qed.

Lemma dispatchTable_read_only s def x h :
  readOnly s = true →
  dispatchTable s def !! x = Some h →
  ∃ a, a ∈ def_actions def
       ∧ action_readOnly a = true
       ∧ action_name a = x
       ∧ h = action_handler a s.
Proof.
  intros Hro Hh. rewrite dispatchTable_lookup, Hro in Hh.
  destruct (last _) as [a|] eqn:Hlast; [|done].
  apply last_Some_elem_of in Hlast.
  apply list_elem_of_filter in Hlast as [Hname Hlast].
  apply list_elem_of_filter in Hlast as [Hkept Hin].
  apply kept_true_readOnly in Hkept. simpl in Hh. naive_solver.
Qed.

(** X1. Within a group the later declaration of a name wins: a kept
    action is bound to its own handler in the dispatch table as soon as
    no kept action declared after it carries the same name. *)
Theorem dispatch_table_binds_last_homonym s def before a after :
  def_actions def = before ++ a :: after →
  kept (readOnly s) a →
  Forall (λ b, kept (readOnly s) b → action_name b ≠ action_name a) after →
  dispatchTable s def !! action_name a = Some (action_handler a s).
Proof. apply dispatchTable_last_homonym. Qed.

Lemma dispatch_table_binds_own_handler s def a :
  NoDup (action_name <$> def_actions def) →
  a ∈ def_actions def →
  kept (readOnly s) a →
  dispatchTable s def !! action_name a = Some (action_handler a s).
Proof.
  intros Hnodup Hin Hkept.
  apply list_elem_of_split in Hin as (before & after & Hactions).
  apply (dispatchTable_last_homonym s def before a after); [done..|].
  rewrite Hactions, fmap_app, fmap_cons in Hnodup.
  apply NoDup_app in Hnodup as (_ & _ & Hnodup).
  apply NoDup_cons in Hnodup as [Hfresh _].
  apply Forall_forall. intros b Hb _ Heq. apply Hfresh.
  rewrite <- Heq. by apply list_elem_of_fmap_2.
Qed.

(** X2. On a read-only server the dispatch table of a group binds
    handlers of read-only actions only: whatever name is looked up, the
    handler found belongs to a declared action with [readOnly == true]. *)
Theorem read_only_table_has_no_write_handler s def x h :
  readOnly s = true →
  dispatchTable s def !! x = Some h →
  ∃ a, a ∈ def_actions def
       ∧ action_readOnly a = true
       ∧ action_name a = x
       ∧ h = action_handler a s.
Proof. apply dispatchTable_read_only. Qed.

Lemma read_only_table_misses_write_name s def x :
  readOnly s = true →
  Forall (λ b, action_name b = x → action_readOnly b = false) (def_actions def) →
  dispatchTable s def !! x = None.
Proof.
  intros Hro Hwrite.
  destruct (dispatchTable s def !! x) as [h|] eqn:Hh; [|done].
  destruct (dispatchTable_read_only s def x h Hro Hh)
    as (a & Hin & Ha & Hname & _).
  rewrite Forall_forall in Hwrite. specialize (Hwrite a Hin Hname). congruence.
Qed.
End Table.

Section EntryShape.
Context `{Runtime}.
Implicit Types (s : PortainerMCPServer) (def : metaToolDef).

(** X3. The tool registered for a group carries the group's name and
    description and an object schema with one parameter only,
    ["action"]: it is required, of JSON type ["string"], described and
    enumerated, and no other parameter is declared. *)
Theorem entry_declares_only_the_action_parameter s def :
  filter (kept (readOnly s)) (def_actions def) ≠ [] →
  ∃ (e : ServerTool) (schema : gmap string any),
    tools (srv (registerOneMetaTool s def)) !! def_name def = Some e
    ∧ Name (ServerTool_Tool e) = def_name def
    ∧ Description (ServerTool_Tool e) = def_description def
    ∧ SchemaType (InputSchema (ServerTool_Tool e)) = "object"%string
    ∧ Properties (InputSchema (ServerTool_Tool e)) = {[ "action"%string := AnyMap schema ]}
    ∧ Required (InputSchema (ServerTool_Tool e)) = ["action"%string]
    ∧ schema !! "type" = Some (AnyString "string")
    ∧ schema !! "required" = None
    ∧ dom schema = {[ "type"%string; "description"%string; "enum"%string ]}.
Proof.
  intros Hne. unfold registerOneMetaTool.
  rewrite filterActions_filter.
  rewrite bool_decide_eq_false_2
    by (by destruct (filter _ (def_actions def))).
  destruct (buildDispatch _ _) as [actionNames handlers].
  unfold NewTool. simpl foldl. rewrite WithString_action.
  cbn [srv AddTool tools Name Description InputSchema SchemaType Properties Required
       WithToolAnnotation WithDescription].
  rewrite lookup_insert_eq.
  eexists _, _. split; [reflexivity|].
  cbn [ServerTool_Tool Name Description InputSchema SchemaType Properties Required].
  repeat split; done.
Qed.

(** X4. On a read-only server every entry that gets registered is
    annotated read-only and not destructive, whatever the group
    declares; title, idempotency and open-world hints are the group's. *)
Theorem read_only_server_registers_read_only_entries s def :
  readOnly s = true →
  filter (kept (readOnly s)) (def_actions def) ≠ [] →
  ∃ e : ServerTool,
    tools (srv (registerOneMetaTool s def)) !! def_name def = Some e
    ∧ Annotations (ServerTool_Tool e)
      = {| Title := Title (def_annotation def);
           ReadOnlyHint := Some true;
           DestructiveHint := Some false;
           IdempotentHint := IdempotentHint (def_annotation def);
           OpenWorldHint := OpenWorldHint (def_annotation def) |}.
Proof.
  intros Hro Hne.
  destruct (registered_entry s def Hne) as (tool & Htools & _ & Hann & _).
  eexists. rewrite Htools, lookup_insert_eq. split; [done|]. simpl.
  rewrite Hann.
  assert (allReadOnly (filter (kept (readOnly s)) (def_actions def)) = true) as ->;
    [|done].
  apply allReadOnly_Forall, Forall_forall. intros a Ha.
  apply list_elem_of_filter in Ha as [Hk _]. rewrite Hro in Hk.
  by apply kept_true_readOnly.
Qed.

(** X5. On a server that is not read-only nothing is filtered: a group
    with at least one action is registered with every declared name in
    its enum, in declaration order, and every declared name is bound in
    its dispatch table. *)
Theorem unrestricted_server_exposes_every_action s def :
  readOnly s = false →
  def_actions def ≠ [] →
  ∃ e : ServerTool,
    tools (srv (registerOneMetaTool s def)) !! def_name def = Some e
    ∧ enumOf (ServerTool_Tool e) "action" = Some (action_name <$> def_actions def)
    ∧ ∀ a, a ∈ def_actions def → is_Some (dispatchTable s def !! action_name a).
Proof.
  intros Hro Hne.
  assert (filter (kept (readOnly s)) (def_actions def) = def_actions def) as Hall
    by (rewrite Hro; apply filter_kept_false).
  destruct (registered_entry s def) as (tool & Htools & _ & _ & Henum & _).
  { by rewrite Hall. }
  eexists. rewrite Htools, lookup_insert_eq. split; [done|]. simpl.
  rewrite actionNamesOf_filter, Hall in Henum. split; [done|].
  intros a Ha. apply elem_of_dom.
  rewrite dispatchTable_dom, actionNamesOf_filter, Hall.
  apply elem_of_list_to_set. by apply list_elem_of_fmap_2.
Qed.

(** X6. Read-only mode only takes actions away: the enum registered for
    a group on a read-only server is a sublist of the enum registered for
    the same group on a server that is not read-only. *)
Theorem read_only_enum_is_sublist_of_unrestricted s1 s2 def :
  readOnly s1 = true →
  readOnly s2 = false →
  filter (kept true) (def_actions def) ≠ [] →
  ∃ enum1 enum2 : list string,
    registeredEnum (srv (registerOneMetaTool s1 def)) (def_name def) = Some enum1
    ∧ registeredEnum (srv (registerOneMetaTool s2 def)) (def_name def) = Some enum2
    ∧ enum1 `sublist_of` enum2.
Proof.
  intros Hro1 Hro2 Hne.
  destruct (registered_entry s1 def) as (tool1 & Htools1 & _ & _ & Henum1 & _).
  { by rewrite Hro1. }
  destruct (registered_entry s2 def) as (tool2 & Htools2 & _ & _ & Henum2 & _).
  { rewrite Hro2, filter_kept_false. intros Hnil. by rewrite Hnil in Hne. }
  exists (actionNamesOf s1 def), (actionNamesOf s2 def).
  unfold registeredEnum. rewrite Htools1, Htools2, !lookup_insert_eq. simpl.
  split; [done|]. split; [done|].
  rewrite !actionNamesOf_filter, Hro1, Hro2, filter_kept_false.
  apply fmap_sublist, sublist_filter.
Qed.
End EntryShape.

Section Safety.
Context `{Runtime}.
Implicit Types (s : PortainerMCPServer) (def : metaToolDef).
Implicit Types (handlers : gmap string ToolHandlerFunc) (h : ToolHandlerFunc).
Implicit Types (ctx : GoContext) (request : CallToolRequest) (w : World).

(** Every call is either rejected with an error result that leaves the
    world alone, or handed to a handler of the table. *)
Lemma makeMetaHandler_rejects_or_forwards metaToolName handlers ctx request w :
  (∃ message,
     makeMetaHandler metaToolName handlers ctx request w
     = (w, (Some (NewToolResultError message), None)))
  ∨ (∃ x h,
       GetArguments request !! "action" = Some (AnyString x)
       ∧ x ≠ ""%string
       ∧ handlers !! x = Some h
       ∧ makeMetaHandler metaToolName handlers ctx request w = h ctx request w).
Proof.
  destruct (GetArguments request !! "action") as [v|] eqn:Harg.
  - assert (∀ u : any, GetArguments request !! "action" = Some u →
                       (∀ x, u ≠ AnyString x) →
                       ∃ message,
                         makeMetaHandler metaToolName handlers ctx request w
                         = (w, (Some (NewToolResultError message), None)))
      as Hother.
    { intros u Hu Hnot. eexists.
      apply (makeMetaHandler_malformed _ _ _ _ _ u); [done|]. naive_solver. }
    destruct v as [| | |x| |]; try (left; by apply (Hother _ Harg)).
    destruct (decide (x = ""%string)) as [->|Hx].
    + left. eexists.
      by apply (makeMetaHandler_malformed _ _ _ _ _ (AnyString "")); [|naive_solver].
    + destruct (handlers !! x) as [h|] eqn:Hh.
      * right. exists x, h. repeat split; try done.
        by apply (makeMetaHandler_forward _ _ _ _ _ x).
      * left. eexists. by apply makeMetaHandler_unknown.
  - left. eexists. by apply makeMetaHandler_missing.
Qed.

(** X7. On a read-only server a registered entry never runs a write
    handler: whatever the request, the entry either answers with an
    error result and leaves the world untouched, or behaves as the
    handler of a declared action with [readOnly == true]. *)
Theorem read_only_entry_runs_read_only_handlers_only s def ctx request w :
  readOnly s = true →
  filter (kept (readOnly s)) (def_actions def) ≠ [] →
  ∃ e : ServerTool,
    tools (srv (registerOneMetaTool s def)) !! def_name def = Some e
    ∧ ((∃ message,
          ServerTool_Handler e ctx request w
          = (w, (Some (NewToolResultError message), None)))
       ∨ (∃ a, a ∈ def_actions def
               ∧ action_readOnly a = true
               ∧ ServerTool_Handler e ctx request w
                 = action_handler a s ctx request w)).
Proof.
  intros Hro Hne.
  destruct (registered_entry s def Hne) as (tool & Htools & _).
  eexists. rewrite Htools, lookup_insert_eq. split; [done|]. simpl.
  destruct (makeMetaHandler_rejects_or_forwards
              (def_name def) (dispatchTable s def) ctx request w)
    as [Hrej|(x & h & _ & _ & Hh & Hrun)]; [by left|].
  right.
  destruct (dispatchTable_read_only s def x h Hro Hh)
    as (a & Hin & Ha & _ & ->).
  by exists a.
Qed.

(** X8. On a read-only server a call that selects a name declared for
    write actions only is rejected: the entry returns an error result
    with a nil Go error and the world is unchanged. *)
Theorem read_only_server_rejects_write_action s def ctx request w x :
  readOnly s = true →
  filter (kept (readOnly s)) (def_actions def) ≠ [] →
  Forall (λ b, action_name b = x → action_readOnly b = false) (def_actions def) →
  GetArguments request !! "action" = Some (AnyString x) →
  ∃ (e : ServerTool) (message : string),
    tools (srv (registerOneMetaTool s def)) !! def_name def = Some e
    ∧ ServerTool_Handler e ctx request w
      = (w, (Some (NewToolResultError message), None))
    ∧ (x ≠ ""%string →
       message
       = "unknown action '" +:+ x +:+ "' for tool '" +:+ def_name def +:+
         "'. Available actions: " +:+
         strings_Join (range_order w (dom (dispatchTable s def))) ", ").
Proof.
  intros Hro Hne Hwrite Harg.
  destruct (registered_entry s def Hne) as (tool & Htools & _).
  pose proof (read_only_table_misses_write_name s def x Hro Hwrite) as Hnone.
  destruct (decide (x = ""%string)) as [->|Hx].
  - exists {| ServerTool_Tool := tool;
              ServerTool_Handler :=
                makeMetaHandler (def_name def) (dispatchTable s def) |},
           "parameter 'action' must be a non-empty string"%string.
    rewrite Htools, lookup_insert_eq. split; [done|]. simpl.
    split; [|done].
    by apply (makeMetaHandler_malformed _ _ _ _ _ (AnyString "")); [|naive_solver].
  - eexists _, _. rewrite Htools, lookup_insert_eq. split; [done|]. simpl.
    split; [by apply makeMetaHandler_unknown|done].
Qed.

(** X9. In the message for an unknown action every bound name is listed
    once, however often the group declares it: the names listed are
    exactly the keys of the dispatch table, the list has no repetition
    and as many items as the table has keys, and the rejected name is
    not among them. *)
Theorem unknown_action_lists_each_name_once metaToolName handlers ctx request w x :
  range_visits_each_key_once →
  GetArguments request !! "action" = Some (AnyString x) →
  x ≠ ""%string →
  handlers !! x = None →
  ∃ listed : list string,
    makeMetaHandler metaToolName handlers ctx request w
    = (w, (Some (NewToolResultError
                   ("unknown action '" +:+ x +:+ "' for tool '" +:+
                    metaToolName +:+ "'. Available actions: " +:+
                    strings_Join listed ", ")), None))
    ∧ (∀ n : string, n ∈ listed ↔ is_Some (handlers !! n))
    ∧ NoDup listed
    ∧ length listed = size handlers
    ∧ x ∉ listed.
Proof.
  intros Hrange Harg Hx Hnone.
  exists (range_order w (dom handlers)).
  split; [by apply makeMetaHandler_unknown|].
  split.
  { intros n. by rewrite (Hrange w (dom handlers)), elem_of_elements, elem_of_dom. }
  rewrite (Hrange w (dom handlers)).
  split; [apply NoDup_elements|].
  split; [by rewrite <- size_dom|].
  rewrite elem_of_elements. by apply not_elem_of_dom.
Qed.

(** X10. The router reads nothing of a request but its ["action"]
    argument: two requests that agree on it, whatever their tool name
    and other arguments, are either both rejected with the same answer
    or both handed to the handler that the dispatch table binds to the
    string they select, each with its own request. *)
Theorem router_reads_only_the_action_argument
    metaToolName handlers ctx request1 request2 w :
  GetArguments request1 !! "action" = GetArguments request2 !! "action" →
  (∃ message,
     makeMetaHandler metaToolName handlers ctx request1 w
     = (w, (Some (NewToolResultError message), None))
     ∧ makeMetaHandler metaToolName handlers ctx request2 w
       = (w, (Some (NewToolResultError message), None)))
  ∨ (∃ (x : string) (h : ToolHandlerFunc),
       GetArguments request1 !! "action" = Some (AnyString x)
       ∧ x ≠ ""%string
       ∧ handlers !! x = Some h
       ∧ makeMetaHandler metaToolName handlers ctx request1 w = h ctx request1 w
       ∧ makeMetaHandler metaToolName handlers ctx request2 w = h ctx request2 w).
Proof.
  intros Hsame. unfold makeMetaHandler. rewrite <- Hsame.
  destruct (GetArguments request1 !! "action") as [v|]; [|left; eauto].
  destruct v as [| | |x| |]; simpl; try (left; eauto; fail).
  case_bool_decide as Hx; [left; eauto|].
  destruct (handlers !! x) as [h|] eqn:Hh; [|left; eauto].
  right. exists x, h. by rewrite Hh.
Qed.
End Safety.

Section Sequence.
Context `{Runtime}.
Implicit Types (s : PortainerMCPServer) (def : metaToolDef).
Implicit Types (defs before after : list metaToolDef).

Lemma registerOneMetaTool_lookup_ne s def (n : string) :
  n ≠ def_name def →
  tools (srv (registerOneMetaTool s def)) !! n = tools (srv s) !! n.
Proof.
  intros Hn.
  destruct (decide (filter (kept (readOnly s)) (def_actions def) = []))
    as [Hnil|Hne].
  - by rewrite registerOneMetaTool_skip.
  - destruct (registered_entry s def Hne) as (tool & -> & _).
    by rewrite lookup_insert_ne.
Qed.

Lemma registerOneMetaTool_lookup_skipped s def (n : string) :
  ¬ Exists (kept (readOnly s)) (def_actions def) →
  tools (srv (registerOneMetaTool s def)) !! n = tools (srv s) !! n.
Proof.
  intros Hex. rewrite registerOneMetaTool_skip; [done|].
  destruct (decide (filter (kept (readOnly s)) (def_actions def) = []))
    as [|Hne]; [done|].
  by apply kept_nonempty_Exists in Hne.
Qed.

Lemma registerAll_lookup_other s defs (n : string) :
  Forall (λ def, Exists (kept (readOnly s)) (def_actions def) → def_name def ≠ n)
         defs →
  tools (srv (registerAll s defs)) !! n = tools (srv s) !! n.
Proof.
  intros Hother. revert s Hother.
  induction defs as [|def defs IH]; intros s Hother; [done|].
  apply Forall_cons in Hother as [Hdef Hother].
  unfold registerAll in *. simpl foldl. rewrite IH.
  - destruct (decide (Exists (kept (readOnly s)) (def_actions def))) as [Hex|Hex].
    + apply registerOneMetaTool_lookup_ne. by intros ->; apply Hdef.
    + by apply registerOneMetaTool_lookup_skipped.
  - by rewrite registerOneMetaTool_readOnly.
Qed.

Lemma registerAll_lookup_last s defs before def after :
  defs = before ++ def :: after →
  Forall (λ later, Exists (kept (readOnly s)) (def_actions later) →
                   def_name later ≠ def_name def) after →
  tools (srv (registerAll s defs)) !! def_name def
  = tools (srv (registerOneMetaTool (registerAll s before) def)) !! def_name def.
Proof.
  intros -> Hafter.
  assert (registerAll s (before ++ def :: after)
          = registerAll (registerOneMetaTool (registerAll s before) def) after)
    as -> by (unfold registerAll; by rewrite foldl_app).
  apply registerAll_lookup_other.
  by rewrite registerOneMetaTool_readOnly, registerAll_readOnly.
Qed.

(** X11. Registration touches nothing but the names it registers: a tool
    found on the server under a name that no group with a kept action
    carries is still there, unchanged, after the whole catalog has been
    registered. *)
Theorem registration_keeps_other_tools s defs (n : string) :
  Forall (λ def, Exists (kept (readOnly s)) (def_actions def) → def_name def ≠ n)
         defs →
  tools (srv (registerAll s defs)) !! n = tools (srv s) !! n.
Proof. apply registerAll_lookup_other. Qed.

(** X12. Of several groups registered under one name the last one that
    keeps an action stays: after the whole catalog has been registered,
    the tool found under the name of a group is the one stored when that
    group's turn came, provided no later group with a kept action has
    the same name. *)
Theorem registration_keeps_last_group_of_a_name s defs before def after :
  defs = before ++ def :: after →
  Forall (λ later, Exists (kept (readOnly s)) (def_actions later) →
                   def_name later ≠ def_name def) after →
  tools (srv (registerAll s defs)) !! def_name def
  = tools (srv (registerOneMetaTool (registerAll s before) def)) !! def_name def.
Proof. apply registerAll_lookup_last. Qed.
End Sequence.

Section ShippedCatalog.
Context `{Methods}.
Implicit Types (s : PortainerMCPServer) (def : metaToolDef) (a : metaAction).
Implicit Types (ctx : GoContext) (request : CallToolRequest) (w : World).

Lemma catalog_group_keeps_action (readOnlyMode : bool) def :
  def ∈ metaToolDefinitions →
  Exists (kept readOnlyMode) (def_actions def).
Proof.
  assert (Forall (λ def, Exists (λ a, action_readOnly a = true) (def_actions def))
                 metaToolDefinitions) as Hall
    by (apply (bool_decide_unpack _); by vm_compute).
  intros Hin. rewrite Forall_forall in Hall.
  eapply Exists_impl; [exact (Hall def Hin)|]. intros a Ha. unfold kept.
  rewrite Ha. by destruct readOnlyMode.
Qed.

Lemma catalog_group_has_write_action def :
  def ∈ metaToolDefinitions →
  Exists (λ a, action_readOnly a = false) (def_actions def).
Proof.
  assert (Forall (λ def, Exists (λ a, action_readOnly a = false) (def_actions def))
                 metaToolDefinitions) as Hall
    by (apply (bool_decide_unpack _); by vm_compute).
  intros Hin. rewrite Forall_forall in Hall. by apply Hall.
Qed.

Lemma catalog_group_names_NoDup_actions def :
  def ∈ metaToolDefinitions →
  NoDup (action_name <$> def_actions def).
Proof.
  assert (Forall (λ def, NoDup (action_name <$> def_actions def))
                 metaToolDefinitions) as Hall
    by (apply (bool_decide_unpack _); by vm_compute).
  intros Hin. rewrite Forall_forall in Hall. by apply Hall.
Qed.

Lemma catalog_action_name_nonempty def a :
  def ∈ metaToolDefinitions →
  a ∈ def_actions def →
  action_name a ≠ ""%string.
Proof.
  intros Hdef Ha.
  pose proof catalog_action_names_nonempty as Hall.
  rewrite Forall_forall in Hall. apply Hall.
  unfold catalogActions. apply list_elem_of_bind. eauto.
Qed.

(** The tool [RegisterMetaTools] leaves under the name of a shipped
    group is the one [registerOneMetaTool] stored for that group, on a
    server with the same read-only flag. *)
Lemma catalog_entry s def :
  def ∈ metaToolDefinitions →
  ∃ s' : PortainerMCPServer,
    readOnly s' = readOnly s
    ∧ tools (srv (RegisterMetaTools s)) !! def_name def
      = tools (srv (registerOneMetaTool s' def)) !! def_name def.
Proof.
  intros Hin.
  apply list_elem_of_split in Hin as (before & after & Hdefs).
  exists (registerAll s before). split; [apply registerAll_readOnly|].
  unfold RegisterMetaTools.
  apply (registerAll_lookup_last s _ before def after); [done|].
  pose proof catalog_group_names_NoDup as Hnodup.
  rewrite Hdefs, fmap_app, fmap_cons in Hnodup.
  apply NoDup_app in Hnodup as (_ & _ & Hnodup).
  apply NoDup_cons in Hnodup as [Hfresh _].
  apply Forall_forall. intros later Hlater _ Heq. apply Hfresh.
  rewrite <- Heq. by apply list_elem_of_fmap_2.
Qed.

(** X13. After [RegisterMetaTools], under either mode, the tool found
    under the name of each shipped group is that group's own: its enum
    is the sequence of the group's action names that pass the mode
    filter. *)
Theorem shipped_group_is_registered_with_its_enum s def :
  def ∈ metaToolDefinitions →
  registeredEnum (srv (RegisterMetaTools s)) (def_name def)
  = Some (action_name <$> filter (kept (readOnly s)) (def_actions def)).
Proof.
  intros Hin. destruct (catalog_entry s def Hin) as (s' & Hro & Hentry).
  unfold registeredEnum. rewrite Hentry.
  destruct (registered_entry s' def) as (tool & Htools & _ & _ & Henum & _).
  { rewrite Hro. by apply kept_nonempty_Exists, catalog_group_keeps_action. }
  rewrite Htools, lookup_insert_eq. simpl.
  by rewrite Henum, actionNamesOf_filter, Hro.
Qed.

(** X14. After [RegisterMetaTools] on a read-only server every shipped
    tool is annotated read-only and not destructive; on a server that is
    not read-only every shipped tool carries the annotation its group
    declares. *)
Theorem shipped_annotations_follow_the_mode s def :
  def ∈ metaToolDefinitions →
  ∃ e : ServerTool,
    tools (srv (RegisterMetaTools s)) !! def_name def = Some e
    ∧ if readOnly s
      then ReadOnlyHint (Annotations (ServerTool_Tool e)) = Some true
           ∧ DestructiveHint (Annotations (ServerTool_Tool e)) = Some false
      else Annotations (ServerTool_Tool e) = def_annotation def.
Proof.
  intros Hin. destruct (catalog_entry s def Hin) as (s' & Hro & Hentry).
  destruct (registered_entry s' def) as (tool & Htools & _ & Hann & _).
  { rewrite Hro. by apply kept_nonempty_Exists, catalog_group_keeps_action. }
  eexists. rewrite Hentry, Htools, lookup_insert_eq. split; [done|]. simpl.
  rewrite Hann, Hro. destruct (readOnly s).
  - assert (allReadOnly (filter (kept true) (def_actions def)) = true) as ->;
      [|done].
    apply allReadOnly_Forall, Forall_forall. intros a Ha.
    apply list_elem_of_filter in Ha as [Hk _]. by apply kept_true_readOnly.
  - rewrite filter_kept_false.
    destruct (allReadOnly (def_actions def)) eqn:Hall; [|done].
    apply allReadOnly_Forall in Hall.
    pose proof (catalog_group_has_write_action def Hin) as Hwrite.
    apply Exists_exists in Hwrite as (a & Ha & Hfalse).
    rewrite Forall_forall in Hall. specialize (Hall a Ha). congruence.
Qed.

Lemma catalog_dispatch s def a ctx request w :
  def ∈ metaToolDefinitions →
  a ∈ def_actions def →
  kept (readOnly s) a →
  ParamsName request = def_name def →
  GetArguments request !! "action" = Some (AnyString (action_name a)) →
  ∃ s' : PortainerMCPServer,
    readOnly s' = readOnly s
    ∧ CallTool (srv (RegisterMetaTools s)) ctx request w
      = Some (action_handler a s' ctx request w).
Proof.
  intros Hdef Ha Hkept Hname Harg.
  destruct (catalog_entry s def Hdef) as (s' & Hro & Hentry).
  exists s'. split; [done|].
  destruct (registered_entry s' def) as (tool & Htools & _).
  { rewrite Hro. by apply kept_nonempty_Exists, catalog_group_keeps_action. }
  unfold CallTool. rewrite Hname, Hentry, Htools, lookup_insert_eq. simpl.
  f_equal. apply (makeMetaHandler_forward _ _ _ _ _ (action_name a)); [done| |].
  - by apply (catalog_action_name_nonempty def).
  - apply dispatch_table_binds_own_handler; [|done|by rewrite Hro].
    by apply catalog_group_names_NoDup_actions.
Qed.

(** X15. Nothing is lost by grouping: after [RegisterMetaTools], a call
    of a shipped tool that selects one of the group's actions allowed
    under the mode runs the handler of that action, on the request as
    it came. *)
Theorem shipped_action_is_reachable s def a ctx request w :
  def ∈ metaToolDefinitions →
  a ∈ def_actions def →
  kept (readOnly s) a →
  ParamsName request = def_name def →
  GetArguments request !! "action" = Some (AnyString (action_name a)) →
  ∃ s' : PortainerMCPServer,
    readOnly s' = readOnly s
    ∧ CallTool (srv (RegisterMetaTools s)) ctx request w
      = Some (action_handler a s' ctx request w).
Proof. apply catalog_dispatch. Qed.

(** X16. After [RegisterMetaTools] on a read-only server, a call of a
    shipped tool that selects one of the group's write actions is
    answered with the unknown-action error, which lists the group's
    read-only names; the world is unchanged, so the write handler has
    not run. *)
Theorem shipped_write_action_is_rejected_when_read_only s def a ctx request w :
  readOnly s = true →
  def ∈ metaToolDefinitions →
  a ∈ def_actions def →
  action_readOnly a = false →
  ParamsName request = def_name def →
  GetArguments request !! "action" = Some (AnyString (action_name a)) →
  CallTool (srv (RegisterMetaTools s)) ctx request w
  = Some (w, (Some (NewToolResultError
                      ("unknown action '" +:+ action_name a +:+ "' for tool '" +:+
                       def_name def +:+ "'. Available actions: " +:+
                       strings_Join
                         (range_order w
                            (list_to_set
                               (action_name
                                  <$> filter (λ b, action_readOnly b = true)
                                             (def_actions def))))
                         ", ")), None)).
Proof.
  intros Hmode Hdef Ha Hwrite Hname Harg.
  destruct (catalog_entry s def Hdef) as (s' & Hro & Hentry).
  rewrite Hmode in Hro.
  destruct (registered_entry s' def) as (tool & Htools & _).
  { rewrite Hro. by apply kept_nonempty_Exists, catalog_group_keeps_action. }
  assert (dispatchTable s' def !! action_name a = None) as Hnone.
  { apply read_only_table_misses_write_name; [done|].
    apply Forall_forall. intros b Hb Heq.
    pose proof (catalog_group_names_NoDup_actions def Hdef) as Hnodup.
    assert (b = a) as ->; [|done].
    apply list_elem_of_lookup in Hb as [i Hi].
    apply list_elem_of_lookup in Ha as [j Hj].
    assert (i = j) as ->; [|congruence].
    eapply NoDup_lookup; [exact Hnodup| |];
      rewrite list_lookup_fmap; [by rewrite Hi | rewrite Hj; simpl; by rewrite Heq]. }
  unfold CallTool. rewrite Hname, Hentry, Htools, lookup_insert_eq.
  cbn [ServerTool_Handler]. f_equal.
  rewrite (makeMetaHandler_unknown _ _ _ _ _ (action_name a));
    [|done|by apply (catalog_action_name_nonempty def)|done].
  rewrite dispatchTable_dom, actionNamesOf_filter, Hro.
  assert (filter (kept true) (def_actions def)
          = filter (λ b, action_readOnly b = true) (def_actions def)) as ->; [|done].
  apply list_filter_iff. intros b. apply kept_true_readOnly.
Qed.
End ShippedCatalog.

(** * Helper functions of package mcp *)

Section KeyValue.
Implicit Types (items : list any) (item : any) (key value : string).
Implicit Types (resultMap : gmap string string).

Lemma filter_nothing {A} (P : A → Prop) `{!∀ x, Decision (P x)} (l : list A) :
  Forall (λ x, ¬ P x) l → filter P l = [].
Proof.
  induction 1 as [|x l Hx _ IH]; [done|]. by rewrite filter_cons_False.
Qed.

Lemma parseKeyValueMap_step item key value items resultMap :
  holdsKeyValue item key value →
  parseKeyValueMap_from (item :: items) resultMap
  = parseKeyValueMap_from items (<[key := value]> resultMap).
Proof.
  intros (itemMap & -> & Hkey & Hvalue). simpl.
  unfold index. by rewrite Hkey, Hvalue.
Qed.

Lemma parseKeyValueMap_reject item items resultMap :
  (∀ key value, ¬ holdsKeyValue item key value) →
  ∃ err, ∀ items' resultMap',
    parseKeyValueMap_from (item :: items') resultMap' = inl err.
Proof.
  intros Hbad.
  destruct item as [| | | | |itemMap]; try (eexists; intros; reflexivity).
  destruct (itemMap !! "key") as [k|] eqn:Hkey;
    [|eexists; intros; simpl; unfold index; rewrite Hkey; reflexivity].
  destruct k as [| | |key| |];
    try (eexists; intros; simpl; unfold index; rewrite Hkey; reflexivity).
  destruct (itemMap !! "value") as [v|] eqn:Hvalue;
    [|eexists; intros; simpl; unfold index; rewrite Hkey, Hvalue; reflexivity].
  destruct v as [| | |value| |];
    try (eexists; intros; simpl; unfold index; rewrite Hkey, Hvalue; reflexivity).
  destruct (Hbad key value). by exists itemMap.
Qed.

Lemma holdsKeyValue_dec item :
  (∃ key value, holdsKeyValue item key value)
  ∨ (∀ key value, ¬ holdsKeyValue item key value).
Proof.
  destruct item as [| | | | |itemMap];
    try (right; intros key value (? & ? & _); discriminate).
  destruct (itemMap !! "key") as [[| | |key| |]|] eqn:Hkey;
    try (right; intros ? ? (? & [= <-] & ? & _); congruence).
  destruct (itemMap !! "value") as [[| | |value| |]|] eqn:Hvalue;
    try (right; intros ? ? (? & [= <-] & _ & ?); congruence).
  left. exists key, value, itemMap. done.
Qed.

Lemma parseKeyValueMap_from_pairs (pairs : list (string * string)) items resultMap :
  Forall2 (λ item kv, holdsKeyValue item kv.1 kv.2) items pairs →
  parseKeyValueMap_from items resultMap
  = inr (foldl (λ m kv, <[kv.1 := kv.2]> m) resultMap pairs).
Proof.
  intros Hitems. revert resultMap.
  induction Hitems as [|item kv items pairs Hitem _ IH]; intros resultMap; [done|].
  rewrite (parseKeyValueMap_step item kv.1 kv.2) by done. apply IH.
Qed.

Lemma parseKeyValueMap_accepts_iff items resultMap :
  (∃ m, parseKeyValueMap_from items resultMap = inr m)
  ↔ Forall (λ item, ∃ key value, holdsKeyValue item key value) items.
Proof.
  revert resultMap. induction items as [|item items IH]; intros resultMap.
  - split; [constructor | by eexists].
  - rewrite Forall_cons.
    destruct (holdsKeyValue_dec item) as [(key & value & Hitem)|Hbad].
    + rewrite (parseKeyValueMap_step item key value) by done.
      rewrite IH. naive_solver.
    + destruct (parseKeyValueMap_reject item items resultMap Hbad) as [err Herr].
      rewrite Herr. split; [by intros [m ?] | naive_solver].
Qed.

(** X17. [parseKeyValueMap] succeeds exactly on the lists whose items
    are all objects with a string ["key"] and a string ["value"]; fields
    beside these two are ignored. In particular the empty list gives
    the empty map. *)
Theorem parseKeyValueMap_succeeds_iff_items_well_formed items :
  ((∃ m, parseKeyValueMap items = inr m)
   ↔ Forall (λ item, ∃ key value, holdsKeyValue item key value) items)
  ∧ parseKeyValueMap [] = inr ∅.
Proof. split; [apply parseKeyValueMap_accepts_iff | done]. Qed.

Lemma foldl_insert_lookup (pairs : list (string * string)) resultMap key :
  foldl (λ m kv, <[kv.1 := kv.2]> m) resultMap pairs !! key
  = match last (filter (λ kv, kv.1 = key) pairs) with
    | Some kv => Some kv.2
    | None => resultMap !! key
    end.
Proof.
  revert resultMap. induction pairs as [|kv pairs IH]; intros resultMap; [done|].
  simpl. rewrite IH.
  destruct (decide (kv.1 = key)) as [Hk|Hk].
  - rewrite filter_cons_True by done. rewrite last_cons.
    destruct (last (filter _ pairs)); [done|].
    by rewrite <- Hk, lookup_insert_eq.
  - rewrite filter_cons_False by done.
    destruct (last (filter _ pairs)); [done|].
    by rewrite lookup_insert_ne.
Qed.

(** X18. When the same key comes twice the later item wins: if the
    list splits into items, then an item for [(key, value)], then
    well-formed items none of which is for [key], the parsed map binds
    [key] to [value]. *)
Theorem parseKeyValueMap_last_item_of_a_key_wins items before item after key value m :
  items = before ++ item :: after →
  holdsKeyValue item key value →
  Forall (λ later, ∀ k v, holdsKeyValue later k v → k ≠ key) after →
  parseKeyValueMap items = inr m →
  m !! key = Some value.
Proof.
  intros -> Hitem Hafter Hparse.
  assert (Forall (λ item, ∃ k v, holdsKeyValue item k v)
                 (before ++ item :: after)) as Hall
    by (apply parseKeyValueMap_accepts_iff with (resultMap := ∅); eauto).
  assert (∃ pairs, Forall2 (λ item kv, holdsKeyValue item kv.1 kv.2)
                           (before ++ item :: after) pairs) as [pairs Hpairs].
  { clear -Hall. induction Hall as [|x l (k & v & Hx) _ [pairs IH]].
    - exists []. constructor.
    - exists ((k, v) :: pairs). by constructor. }
  unfold parseKeyValueMap in Hparse.
  rewrite (parseKeyValueMap_from_pairs pairs) in Hparse by done.
  injection Hparse as <-.
  apply Forall2_app_inv_l in Hpairs as (pairs1 & pairs2 & _ & Hrest & ->).
  apply Forall2_cons_inv_l in Hrest as (kv & pairs3 & Hkv & Hlater & ->).
  rewrite foldl_insert_lookup, !filter_app.
  assert (kv = (key, value)) as ->.
  { destruct Hitem as (im & -> & Hk & Hv), Hkv as (im' & [= <-] & Hk' & Hv').
    destruct kv. simpl in *. congruence. }
  rewrite filter_cons_True by done.
  assert (filter (λ kv, kv.1 = key) pairs3 = []) as ->.
  { clear -Hlater Hafter. revert pairs3 Hlater.
    induction Hafter as [|x l Hx _ IH]; intros pairs3 Hlater.
    - by apply Forall2_nil_inv_l in Hlater as ->.
    - apply Forall2_cons_inv_l in Hlater as (kv & pairs & Hkv & Hlater & ->).
      rewrite filter_cons_False by (by apply (Hx kv.1 kv.2)). by apply IH. }
  by rewrite last_snoc.
Qed.

(** X19. [parseKeyValueMap] stops at the first item that does not fit
    and reports that item alone: after any well-formed items, the error
    for a bad item is the one the bad item gives on its own, whatever
    follows it. *)
Theorem parseKeyValueMap_reports_first_bad_item before bad after :
  Forall (λ item, ∃ key value, holdsKeyValue item key value) before →
  (∀ key value, ¬ holdsKeyValue bad key value) →
  ∃ err : FormatError,
    parseKeyValueMap (before ++ bad :: after) = inl err
    ∧ parseKeyValueMap [bad] = inl err.
Proof.
  intros Hbefore Hbad.
  destruct (parseKeyValueMap_reject bad after ∅ Hbad) as [err Herr].
  exists err. split; [|apply Herr].
  unfold parseKeyValueMap. generalize (∅ : gmap string string).
  induction Hbefore as [|item before (key & value & Hitem) _ IH]; intros resultMap.
  - apply Herr.
  - simpl app. rewrite (parseKeyValueMap_step item key value) by done. apply IH.
Qed.

(** X20. Round trip: the items written for the bindings of a map parse
    back to that map. *)
Theorem parseKeyValueMap_keyValueItems (m : gmap string string) :
  parseKeyValueMap (keyValueItems m) = inr m.
Proof.
  unfold parseKeyValueMap, keyValueItems.
  rewrite (parseKeyValueMap_from_pairs (map_to_list m)).
  - f_equal. apply map_eq. intros key. rewrite foldl_insert_lookup, lookup_empty.
    destruct (m !! key) as [value|] eqn:Hm.
    + assert (filter (λ kv, kv.1 = key) (map_to_list m) = [(key, value)]) as ->; [|done].
      apply elem_of_map_to_list in Hm.
      pose proof (NoDup_fst_map_to_list m) as Hnodup.
      revert Hm Hnodup. generalize (map_to_list m). intros l.
      induction l as [|kv l IH]; intros Hin Hnodup; [by apply elem_of_nil in Hin|].
      simpl in Hnodup. apply NoDup_cons in Hnodup as [Hfresh Hnodup].
      apply elem_of_cons in Hin as [<-|Hin].
      * rewrite filter_cons_True by done. f_equal.
        apply filter_nothing, Forall_forall. intros kv Hkv Heq. apply Hfresh.
        simpl. rewrite <- Heq. by apply (list_elem_of_fmap_2 fst).
      * rewrite filter_cons_False; [by apply IH|].
        intros Heq. apply Hfresh. rewrite Heq.
        by apply (list_elem_of_fmap_2 fst l (key, value)).
    + assert (filter (λ kv, kv.1 = key) (map_to_list m) = []) as ->; [|done].
      apply filter_nothing, Forall_forall. intros [k v] Hkv Heq. simpl in Heq.
      subst k. apply elem_of_map_to_list in Hkv. congruence.
  - apply Forall2_fmap_l, Forall_Forall2_diag, Forall_forall. intros kv _.
    eexists. split; [reflexivity|]. by split.
Qed.
End KeyValue.

(** * models/tag.go *)

Section Tags.
Context `{Runtime}.

Lemma collect_parsed (keys : list string) (environmentIDs : list Z) :
  foldl (λ environmentIDs endpointID,
           match Atoi endpointID with
           | Some id => environmentIDs ++ [id]
           | None => environmentIDs
           end) environmentIDs keys
  = environmentIDs ++ omap Atoi keys.
Proof.
  revert environmentIDs.
  induction keys as [|key keys IH]; intros environmentIDs; simpl.
  - by rewrite app_nil_r.
  - rewrite IH. destruct (Atoi key); [by rewrite <- app_assoc|done].
Qed.

Lemma Atoi_fits_int (s : string) (n : Z) :
  Atoi s = Some n → (- 2 ^ 63 ≤ n < 2 ^ 63)%Z.
Proof.
  unfold Atoi. destruct (match s with EmptyString => _ | _ => _ end) as [negative digits].
  destruct digits; [done|].
  destruct (digitsValue _ 0) as [m|]; [|done]. simpl.
  case_bool_decide; [|done]. by intros [= <-].
Qed.

Lemma omap_length_le {A B} (f : A → option B) (l : list A) :
  length (omap f l) ≤ length l.
Proof.
  induction l as [|x l IH]; csimpl; [done|]. destruct (f x); csimpl; lia.
Qed.

(** X21. [ConvertTagToEnvironmentTag] on a tag copies its id and name,
    and its environment ids are the endpoint keys that [strconv.Atoi]
    accepts, converted, one id for each such key and in the order the
    keys are visited: two keys that denote one number give that id
    twice. A key that is not a decimal integer is dropped without an
    error, the boolean stored under a key is not looked at, there are
    no more ids than endpoints, and every id fits an [int]. *)
Theorem converted_tag_lists_the_numeric_endpoint_keys (w : World) (rawTag : PortainerTag) :
  range_visits_each_key_once →
  EnvironmentTag_ID (ConvertTagToEnvironmentTag w (Some rawTag)) = Tag_ID rawTag
  ∧ EnvironmentTag_Name (ConvertTagToEnvironmentTag w (Some rawTag)) = Tag_Name rawTag
  ∧ EnvironmentTag_EnvironmentIds (ConvertTagToEnvironmentTag w (Some rawTag))
    = omap Atoi (range_order w (dom (Tag_Endpoints rawTag)))
  ∧ EnvironmentTag_EnvironmentIds (ConvertTagToEnvironmentTag w (Some rawTag))
    ≡ₚ omap Atoi (elements (dom (Tag_Endpoints rawTag)))
  ∧ (∀ id : Z,
       id ∈ EnvironmentTag_EnvironmentIds (ConvertTagToEnvironmentTag w (Some rawTag))
       ↔ ∃ (key : string) (flag : bool),
           Tag_Endpoints rawTag !! key = Some flag ∧ Atoi key = Some id)
  ∧ length (EnvironmentTag_EnvironmentIds (ConvertTagToEnvironmentTag w (Some rawTag)))
    ≤ size (Tag_Endpoints rawTag)
  ∧ Forall (λ id, - 2 ^ 63 ≤ id < 2 ^ 63)%Z
           (EnvironmentTag_EnvironmentIds (ConvertTagToEnvironmentTag w (Some rawTag))).
Proof.
  intros Hrange. simpl. rewrite collect_parsed. simpl.
  split; [done|]. split; [done|]. split; [done|].
  split; [by rewrite (Hrange w)|]. split; [|split].
  - intros id. rewrite list_elem_of_omap. split.
    + intros (key & Hkey & Hid).
      rewrite (Hrange w), elem_of_elements, elem_of_dom in Hkey.
      destruct Hkey as [flag Hflag]. eauto.
    + intros (key & flag & Hflag & Hid). exists key. split; [|done].
      rewrite (Hrange w), elem_of_elements, elem_of_dom. eauto.
  - etrans; [apply omap_length_le|].
    by rewrite (Hrange w), <- size_dom.
  - apply Forall_forall. intros id Hid.
    apply list_elem_of_omap in Hid as (key & _ & Hid). by apply Atoi_fits_int in Hid.
Qed.
End Tags.

(** * The status tool *)

Section Status.
Context `{Backend}.
Implicit Types (ctx : GoContext) (request : CallToolRequest) (w : World).

(** X22. When the SDK call fails, the status tool answers with an error
    result and a nil Go error, and the text carries the prefix twice,
    once from the client and once from the handler, before the message
    of the SDK error. The world is as the SDK call left it. *)
Theorem status_tool_reports_sdk_failure ctx request w w' rawStatus (err : GoError) :
  wrapping_prefixes_text →
  sdkGetSystemStatus w = (w', (rawStatus, Some err)) →
  HandleGetSystemStatus ctx request w
  = (w', (Some (NewToolResultError
                  ("failed to get system status: failed to get system status: "
                   +:+ errorText err)), None)).
Proof.
  intros Hwrap Hsdk. unfold HandleGetSystemStatus, client_GetSystemStatus.
  rewrite Hsdk. cbn [NewToolResultErrorFromErr]. by rewrite Hwrap.
Qed.

(** X23. The status tool never returns a Go error and always returns a
    result; it calls the SDK once, whatever the request and its context
    are; and the result is not an error exactly when the SDK call and
    the marshalling both succeed, in which case it is the marshalled
    text of the converted status. *)
Theorem status_tool_contract ctx request w :
  ∃ result : CallToolResult,
    HandleGetSystemStatus ctx request w
    = ((sdkGetSystemStatus w).1, (Some result, None))
    ∧ (IsError result = false
       ↔ ∃ data : string,
           (sdkGetSystemStatus w).2.2 = None
           ∧ marshalSystemStatus (ConvertToSystemStatus (sdkGetSystemStatus w).2.1)
             = (data, None)
           ∧ result = NewToolResultText data).
Proof.
  unfold HandleGetSystemStatus, client_GetSystemStatus.
  destruct (sdkGetSystemStatus w) as [w' [rawStatus [err|]]]; simpl.
  - eexists. split; [reflexivity|]. simpl. split; [done|]. by intros (? & ? & _).
  - destruct (marshalSystemStatus _) as [data [err|]].
    + eexists. split; [reflexivity|]. simpl. split; [done|].
      by intros (? & _ & ? & _).
    + eexists. split; [reflexivity|]. simpl. split; [eauto|done].
Qed.
End Status.

Section StatusThroughRegistry.
Context `{Backend} {methods : Methods}.
Implicit Types (s : PortainerMCPServer).
Implicit Types (ctx : GoContext) (request : CallToolRequest) (w : World).

(** X24. With [HandleGetSystemStatus] as the method of that name, after
    [RegisterMetaTools], read-only or not, a call of ["manage_system"]
    with action ["get_system_status"] is a call of the status handler on
    the same request. *)
Theorem status_tool_reachable_through_manage_system s ctx request w :
  (∀ s', method "HandleGetSystemStatus" s' = HandleGetSystemStatus) →
  ParamsName request = "manage_system"%string →
  GetArguments request !! "action" = Some (AnyString "get_system_status") →
  CallTool (srv (RegisterMetaTools s)) ctx request w
  = Some (HandleGetSystemStatus ctx request w).
Proof.
  intros Hmethod Hname Harg.
  assert (∃ def a, metaToolDefinitions !! 14 = Some def
                   ∧ def_actions def !! 0 = Some a
                   ∧ def_name def = "manage_system"%string
                   ∧ action_name a = "get_system_status"%string
                   ∧ action_readOnly a = true
                   ∧ action_handler a = method "HandleGetSystemStatus")
    as (def & a & Hdef & Ha & Hdname & Haname & Hro & Hhandler)
    by (eexists _, _; repeat split; reflexivity).
  destruct (catalog_dispatch s def a ctx request w) as (s' & _ & ->).
  - apply list_elem_of_lookup. eauto.
  - apply list_elem_of_lookup. eauto.
  - unfold kept. rewrite Hro. by destruct (readOnly s).
  - by rewrite Hdname.
  - by rewrite Haname.
  - by rewrite Hhandler, Hmethod.
Qed.
End StatusThroughRegistry.

(** ** The further properties at concrete inputs *)

Example Atoi_examples :
  Atoi "42" = Some 42%Z ∧ Atoi "-7" = Some (-7)%Z ∧ Atoi "+1" = Some 1%Z
  ∧ Atoi "007" = Some 7%Z ∧ Atoi "" = None ∧ Atoi "-" = None
  ∧ Atoi "x2" = None ∧ Atoi "1 " = None ∧ Atoi "1_000" = None
  ∧ Atoi "9223372036854775807" = Some 9223372036854775807%Z
  ∧ Atoi "9223372036854775808" = None
  ∧ Atoi "-9223372036854775808" = Some (-9223372036854775808)%Z.
Proof. repeat split; reflexivity. Qed.

Example sampleItems_parsed :
  parseKeyValueMap sampleItems = inr {[ "a"%string := "3"%string; "b"%string := "2"%string ]}.
Proof. by vm_compute. Qed.

Example bad_key_reported_before_bad_value :
  parseKeyValueMap [AnyMap {[ "key"%string := AnyNumber 1; "value"%string := AnyBool true ]}]
  = inl (Errorf "invalid key: %v" (AnyNumber 1))
  ∧ parseKeyValueMap [AnyMap {[ "value"%string := AnyString "v" ]}]
    = inl (Errorf "invalid key: %v" AnyNil).
Proof. split; reflexivity. Qed.

Example sampleTag_converted :
  @ConvertTagToEnvironmentTag traceRuntime [] (Some sampleTag)
  = {| EnvironmentTag_ID := 7; EnvironmentTag_Name := "prod";
       EnvironmentTag_EnvironmentIds :=
         omap Atoi (elements (dom (Tag_Endpoints sampleTag))) |}
  ∧ omap Atoi (elements (dom (Tag_Endpoints sampleTag))) ≡ₚ [1%Z; 1%Z; 42%Z].
Proof.
  split; [by vm_compute|].
  apply (bool_decide_unpack _). by vm_compute.
Qed.

Example status_tool_through_registry :
  CallTool (srv (@RegisterMetaTools _ statusMethods (emptyServer true))) ()
           (callWith "manage_system" (AnyString "get_system_status")) []
  = Some (["GetSystemStatus"], (Some (NewToolResultText "2.19.0/abc"), None))
  ∧ CallTool (srv (@RegisterMetaTools _ statusMethods (emptyServer true))) ()
             (callWith "manage_system" (AnyString "get_system_status")) ["down"]
    = Some (["down"; "GetSystemStatus"],
            (Some (NewToolResultError
                     "failed to get system status: failed to get system status: connection refused"),
             None)).
Proof. split; reflexivity. Qed.

Lemma entry_declares_only_the_action_parameter_witness :
  ∃ (e : ServerTool) (schema : gmap string any),
    tools (srv (registerOneMetaTool (emptyServer true) usersDef)) !! "users" = Some e
    ∧ Name (ServerTool_Tool e) = "users"%string
    ∧ Description (ServerTool_Tool e) = "Manage users."%string
    ∧ SchemaType (InputSchema (ServerTool_Tool e)) = "object"%string
    ∧ Properties (InputSchema (ServerTool_Tool e)) = {[ "action"%string := AnyMap schema ]}
    ∧ Required (InputSchema (ServerTool_Tool e)) = ["action"%string]
    ∧ schema !! "type" = Some (AnyString "string")
    ∧ schema !! "required" = None
    ∧ dom schema = {[ "type"%string; "description"%string; "enum"%string ]}.
Proof.
  apply (entry_declares_only_the_action_parameter (emptyServer true) usersDef). done.
Defined.

Lemma registration_keeps_other_tools_witness :
  tools (srv (registerAll (registerOneMetaTool (emptyServer false) accountsDef)
                          [usersDef; writeOnlyDef])) !! "accounts"
  = tools (srv (registerOneMetaTool (emptyServer false) accountsDef)) !! "accounts".
Proof.
  apply (registration_keeps_other_tools
           (registerOneMetaTool (emptyServer false) accountsDef)
           [usersDef; writeOnlyDef] "accounts").
  repeat constructor; intros _; discriminate.
Defined.

Lemma read_only_server_registers_read_only_entries_witness :
  ∃ e : ServerTool,
    tools (srv (registerOneMetaTool (emptyServer true) usersDef)) !! "users" = Some e
    ∧ Annotations (ServerTool_Tool e)
      = {| Title := "Manage Users";
           ReadOnlyHint := Some true;
           DestructiveHint := Some false;
           IdempotentHint := Some false;
           OpenWorldHint := Some false |}.
Proof.
  apply (read_only_server_registers_read_only_entries (emptyServer true) usersDef);
    done.
Defined.

Lemma unrestricted_server_exposes_every_action_witness :
  ∃ e : ServerTool,
    tools (srv (registerOneMetaTool (emptyServer false) usersDef)) !! "users" = Some e
    ∧ enumOf (ServerTool_Tool e) "action" = Some ["list_users"%string; "create_user"%string]
    ∧ ∀ a, a ∈ def_actions usersDef
           → is_Some (dispatchTable (emptyServer false) usersDef !! action_name a).
Proof.
  apply (unrestricted_server_exposes_every_action (emptyServer false) usersDef);
    done.
Defined.

Lemma read_only_enum_is_sublist_of_unrestricted_witness :
  ∃ enum1 enum2 : list string,
    registeredEnum (srv (registerOneMetaTool (emptyServer true) usersDef)) "users"
    = Some enum1
    ∧ registeredEnum (srv (registerOneMetaTool (emptyServer false) usersDef)) "users"
      = Some enum2
    ∧ enum1 `sublist_of` enum2.
Proof.
  apply (read_only_enum_is_sublist_of_unrestricted
           (emptyServer true) (emptyServer false) usersDef); done.
Defined.

Lemma dispatch_table_binds_last_homonym_witness :
  dispatchTable (emptyServer false) homonymDef !! "sync"
  = Some (@method _ traceMethods "HandleSyncRead" (emptyServer false)).
Proof.
  apply (dispatch_table_binds_last_homonym (emptyServer false) homonymDef
           [ {| action_name := "sync";
                action_handler := @method _ traceMethods "HandleSyncWrite";
                action_readOnly := false |} ]
           {| action_name := "sync";
              action_handler := @method _ traceMethods "HandleSyncRead";
              action_readOnly := true |}
           []); [reflexivity | done | constructor].
Defined.

Lemma read_only_table_has_no_write_handler_witness :
  ∃ a, a ∈ def_actions homonymDef
       ∧ action_readOnly a = true
       ∧ action_name a = "sync"%string
       ∧ @method _ traceMethods "HandleSyncRead" (emptyServer true)
         = action_handler a (emptyServer true).
Proof.
  apply (read_only_table_has_no_write_handler (emptyServer true) homonymDef);
    reflexivity.
Defined.

Lemma read_only_server_rejects_write_action_witness :
  ∃ (e : ServerTool) (message : string),
    tools (srv (registerOneMetaTool (emptyServer true) usersDef)) !! "users" = Some e
    ∧ ServerTool_Handler e () (callWith "users" (AnyString "create_user")) []
      = ([], (Some (NewToolResultError message), None))
    ∧ ("create_user"%string ≠ ""%string →
       message
       = "unknown action '" +:+ "create_user" +:+ "' for tool '" +:+ "users" +:+
         "'. Available actions: " +:+
         strings_Join (@range_order traceRuntime []
                         (dom (dispatchTable (emptyServer true) usersDef))) ", ").
Proof.
  apply (read_only_server_rejects_write_action (emptyServer true) usersDef ()
           (callWith "users" (AnyString "create_user")) [] "create_user");
    [done | done | | reflexivity].
  repeat constructor; simpl; congruence.
Defined.

Lemma read_only_entry_runs_read_only_handlers_only_witness :
  ∃ e : ServerTool,
    tools (srv (registerOneMetaTool (emptyServer true) usersDef)) !! "users" = Some e
    ∧ ((∃ message,
          ServerTool_Handler e () (callWith "users" (AnyString "list_users")) []
          = ([], (Some (NewToolResultError message), None)))
       ∨ (∃ a, a ∈ def_actions usersDef
               ∧ action_readOnly a = true
               ∧ ServerTool_Handler e () (callWith "users" (AnyString "list_users")) []
                 = action_handler a (emptyServer true) ()
                     (callWith "users" (AnyString "list_users")) [])).
Proof.
  apply (read_only_entry_runs_read_only_handlers_only (emptyServer true) usersDef ()
           (callWith "users" (AnyString "list_users")) []); done.
Defined.

Lemma unknown_action_lists_each_name_once_witness :
  ∃ listed : list string,
    @makeMetaHandler traceRuntime "pair" (dispatchTable (emptyServer false) homonymDef)
      () (callWith "pair" (AnyString "push")) []
    = ([], (Some (NewToolResultError
                    ("unknown action '" +:+ "push" +:+ "' for tool '" +:+
                     "pair" +:+ "'. Available actions: " +:+
                     strings_Join listed ", ")), None))
    ∧ (∀ n : string,
         n ∈ listed ↔ is_Some (dispatchTable (emptyServer false) homonymDef !! n))
    ∧ NoDup listed
    ∧ length listed = size (dispatchTable (emptyServer false) homonymDef)
    ∧ "push"%string ∉ listed.
Proof.
  apply (@unknown_action_lists_each_name_once traceRuntime "pair"
           (dispatchTable (emptyServer false) homonymDef)
           () (callWith "pair" (AnyString "push")) [] "push");
    [by intros w ks | reflexivity | done | reflexivity].
Defined.

Lemma router_reads_only_the_action_argument_witness :
  (∃ message,
     @makeMetaHandler traceRuntime "users" (dispatchTable (emptyServer false) usersDef) ()
       (callWith "users" (AnyString "list_users")) []
     = ([], (Some (NewToolResultError message), None))
     ∧ @makeMetaHandler traceRuntime "users" (dispatchTable (emptyServer false) usersDef) ()
         {| ParamsName := "other";
            ParamsArguments :=
              AnyMap {[ "action"%string := AnyString "list_users";
                        "id"%string := AnyNumber 3 ]} |} []
       = ([], (Some (NewToolResultError message), None)))
  ∨ (∃ (x : string) (h : @ToolHandlerFunc traceRuntime),
       GetArguments (callWith "users" (AnyString "list_users")) !! "action"
       = Some (AnyString x)
       ∧ x ≠ ""%string
       ∧ dispatchTable (emptyServer false) usersDef !! x = Some h
       ∧ @makeMetaHandler traceRuntime "users" (dispatchTable (emptyServer false) usersDef) ()
         (callWith "users" (AnyString "list_users")) []
       = h () (callWith "users" (AnyString "list_users")) []
       ∧ @makeMetaHandler traceRuntime "users" (dispatchTable (emptyServer false) usersDef) ()
           {| ParamsName := "other";
              ParamsArguments :=
                AnyMap {[ "action"%string := AnyString "list_users";
                          "id"%string := AnyNumber 3 ]} |} []
         = h () {| ParamsName := "other";
                   ParamsArguments :=
                     AnyMap {[ "action"%string := AnyString "list_users";
                               "id"%string := AnyNumber 3 ]} |} []).
Proof.
  apply (@router_reads_only_the_action_argument traceRuntime "users"
           (dispatchTable (emptyServer false) usersDef) ()
           (callWith "users" (AnyString "list_users"))
           {| ParamsName := "other";
              ParamsArguments :=
                AnyMap {[ "action"%string := AnyString "list_users";
                          "id"%string := AnyNumber 3 ]} |} []).
  reflexivity.
Defined.

Lemma registration_keeps_last_group_of_a_name_witness :
  tools (srv (registerAll (emptyServer false) duplicateCatalog)) !! "users"
  = tools (srv (registerOneMetaTool
                  (registerAll (emptyServer false) [usersDef; accountsDef])
                  usersDef)) !! "users".
Proof.
  apply (registration_keeps_last_group_of_a_name (emptyServer false) duplicateCatalog
           [usersDef; accountsDef] usersDef []); [reflexivity | constructor].
Defined.

Lemma shipped_group_is_registered_with_its_enum_witness :
  registeredEnum (srv (@RegisterMetaTools _ traceMethods (emptyServer true)))
                 (def_name shippedUsersDef)
  = Some (action_name <$> filter (kept true) (def_actions shippedUsersDef)).
Proof.
  apply (@shipped_group_is_registered_with_its_enum _ traceMethods
           (emptyServer true) shippedUsersDef).
  apply list_elem_of_lookup. by exists 3.
Defined.

Lemma shipped_annotations_follow_the_mode_witness :
  ∃ e : ServerTool,
    tools (srv (@RegisterMetaTools _ traceMethods (emptyServer true)))
      !! def_name shippedUsersDef = Some e
    ∧ ReadOnlyHint (Annotations (ServerTool_Tool e)) = Some true
    ∧ DestructiveHint (Annotations (ServerTool_Tool e)) = Some false.
Proof.
  apply (@shipped_annotations_follow_the_mode _ traceMethods
           (emptyServer true) shippedUsersDef).
  apply list_elem_of_lookup. by exists 3.
Defined.

Lemma shipped_action_is_reachable_witness :
  ∃ s' : PortainerMCPServer,
    readOnly s' = true
    ∧ CallTool (srv (@RegisterMetaTools _ traceMethods (emptyServer true))) ()
               (callWith "manage_users" (AnyString "list_users")) []
      = Some (action_handler shippedListUsers s' ()
                (callWith "manage_users" (AnyString "list_users")) []).
Proof.
  apply (@shipped_action_is_reachable _ traceMethods (emptyServer true)
           shippedUsersDef shippedListUsers ()
           (callWith "manage_users" (AnyString "list_users")) []);
    [ apply list_elem_of_lookup; by exists 3
    | apply list_elem_of_lookup; by exists 0
    | done | reflexivity | reflexivity ].
Defined.

Lemma shipped_write_action_is_rejected_when_read_only_witness :
  CallTool (srv (@RegisterMetaTools _ traceMethods (emptyServer true))) ()
           (callWith "manage_users" (AnyString "create_user")) []
  = Some ([], (Some (NewToolResultError
                       ("unknown action '" +:+ action_name shippedCreateUser +:+
                        "' for tool '" +:+ def_name shippedUsersDef +:+
                        "'. Available actions: " +:+
                        strings_Join
                          (@range_order traceRuntime []
                             (list_to_set
                                (action_name
                                   <$> filter (λ b, action_readOnly b = true)
                                              (def_actions shippedUsersDef))))
                          ", ")), None)).
Proof.
  apply (@shipped_write_action_is_rejected_when_read_only _ traceMethods
           (emptyServer true) shippedUsersDef shippedCreateUser ()
           (callWith "manage_users" (AnyString "create_user")) []);
    [ reflexivity
    | apply list_elem_of_lookup; by exists 3
    | apply list_elem_of_lookup; by exists 2
    | reflexivity | reflexivity | reflexivity ].
Defined.

Lemma parseKeyValueMap_last_item_of_a_key_wins_witness :
  parseKeyValueMap sampleItems
  = inr {[ "a"%string := "3"%string; "b"%string := "2"%string ]}
  ∧ ({[ "a"%string := "3"%string; "b"%string := "2"%string ]} : gmap string string)
      !! "a"%string = Some "3"%string.
Proof.
  split; [by vm_compute|].
  apply (parseKeyValueMap_last_item_of_a_key_wins sampleItems
           [ keyValueItem ("a"%string, "1"%string);
             keyValueItem ("b"%string, "2"%string) ]
           (AnyMap {[ "key"%string := AnyString "a"; "value"%string := AnyString "3";
                      "note"%string := AnyNumber 1 ]})
           [] "a" "3"
           {[ "a"%string := "3"%string; "b"%string := "2"%string ]});
    [ reflexivity
    | eexists; split; [reflexivity|]; split; reflexivity
    | constructor
    | by vm_compute ].
Defined.

Lemma parseKeyValueMap_reports_first_bad_item_witness :
  ∃ err : FormatError,
    parseKeyValueMap ([keyValueItem ("a"%string, "1"%string)]
                      ++ AnyString "oops" :: [AnyNil]) = inl err
    ∧ parseKeyValueMap [AnyString "oops"] = inl err.
Proof.
  apply (parseKeyValueMap_reports_first_bad_item
           [keyValueItem ("a"%string, "1"%string)] (AnyString "oops") [AnyNil]).
  - repeat constructor. eexists _, _, _. split; [reflexivity|]. split; reflexivity.
  - intros key value (itemMap & Hitem & _). discriminate Hitem.
Defined.

Lemma converted_tag_lists_the_numeric_endpoint_keys_witness :
  EnvironmentTag_ID (@ConvertTagToEnvironmentTag traceRuntime [] (Some sampleTag)) = 7%Z
  ∧ EnvironmentTag_Name (@ConvertTagToEnvironmentTag traceRuntime [] (Some sampleTag))
    = "prod"%string
  ∧ EnvironmentTag_EnvironmentIds
      (@ConvertTagToEnvironmentTag traceRuntime [] (Some sampleTag))
    = omap Atoi (@range_order traceRuntime [] (dom (Tag_Endpoints sampleTag)))
  ∧ EnvironmentTag_EnvironmentIds
      (@ConvertTagToEnvironmentTag traceRuntime [] (Some sampleTag))
    ≡ₚ omap Atoi (elements (dom (Tag_Endpoints sampleTag)))
  ∧ (∀ id : Z,
       id ∈ EnvironmentTag_EnvironmentIds
              (@ConvertTagToEnvironmentTag traceRuntime [] (Some sampleTag))
       ↔ ∃ (key : string) (flag : bool),
           Tag_Endpoints sampleTag !! key = Some flag ∧ Atoi key = Some id)
  ∧ length (EnvironmentTag_EnvironmentIds
              (@ConvertTagToEnvironmentTag traceRuntime [] (Some sampleTag)))
    ≤ size (Tag_Endpoints sampleTag)
  ∧ Forall (λ id, - 2 ^ 63 ≤ id < 2 ^ 63)%Z
           (EnvironmentTag_EnvironmentIds
              (@ConvertTagToEnvironmentTag traceRuntime [] (Some sampleTag))).
Proof.
  apply (@converted_tag_lists_the_numeric_endpoint_keys traceRuntime [] sampleTag).
  by intros w ks.
Defined.

Lemma status_tool_reports_sdk_failure_witness :
  @HandleGetSystemStatus traceRuntime traceBackend ()
    (callWith "manage_system" (AnyString "get_system_status")) ["down"]
  = (["down"; "GetSystemStatus"],
     (Some (NewToolResultError
              ("failed to get system status: failed to get system status: "
               +:+ "connection refused")), None)).
Proof.
  apply (@status_tool_reports_sdk_failure traceRuntime traceBackend ()
           (callWith "manage_system" (AnyString "get_system_status"))
           ["down"] ["down"; "GetSystemStatus"] None "connection refused"%string);
    [by intros prefix err | reflexivity].
Defined.

Lemma status_tool_reachable_through_manage_system_witness :
  CallTool (srv (@RegisterMetaTools _ statusMethods (emptyServer false))) ()
           (callWith "manage_system" (AnyString "get_system_status")) []
  = Some (@HandleGetSystemStatus traceRuntime traceBackend ()
            (callWith "manage_system" (AnyString "get_system_status")) []).
Proof.
  apply (@status_tool_reachable_through_manage_system traceRuntime traceBackend
           statusMethods (emptyServer false) ()
           (callWith "manage_system" (AnyString "get_system_status")) []);
    [by intros s' | reflexivity | reflexivity].
Defined.
